(** * lunarc-blog: the user and article services over a document store

    A shallow embedding of [service.UserService] and
    [service.ArticleService] together with the parts of their
    collaborators that the services observe: [encoding/hex] and
    [bson.ObjectIdHex] (identifier parsing), the [mgo] collection
    operations (find, insert, remove, update on one collection), and
    the signatures of [security] and [utils].

    Go strings and [[]byte] are byte sequences: [string] and
    [list byte].  A Go function returning [(T, error)] returns a pair
    [T * option error]; a panic is the [Panicked] outcome; the database
    and the sources of fresh identifiers and salts are threaded through
    the computation as a [World]. *)

From Stdlib Require Import ZArith NArith Ascii String List Lia.
From Stdlib.Strings Require Import Byte.
From stdpp Require Import base option list strings gmap.
Import ListNotations.
Open Scope string_scope.

(** ** Go values *)

(** The zero value of a Go type. *)
Class Zero (A : Type) := zero : A.
Global Hint Mode Zero ! : typeclass_instances.

#[global] Instance string_zero : Zero string := "".
#[global] Instance Z_zero : Zero Z := 0%Z.
#[global] Instance list_zero {A} : Zero (list A) := [].
#[global] Instance option_zero {A} : Zero (option A) := None.
#[global] Instance unit_zero : Zero unit := tt.

(** Values of the interface type [error] that the services build or
    receive; the nil error is [None] of [option error]. *)
Inductive error : Type :=
| errors_New (msg : string)     (* errors.New(msg) *)
| LastError (code : Z).         (* *mgo.LastError, a write refused by the server *)

#[global] Instance error_eq_dec : EqDecision error.
Proof. solve_decision. Defined.

(** The result of running a Go function body: it returns, or it panics. *)
Inductive outcome (A : Type) : Type :=
| Done (a : A)
| Panicked (v : string).
Arguments Done {A} a.
Arguments Panicked {A} v.

(** [s[:n]] on a byte slice whose capacity is its length. *)
Definition slice_to (n : nat) (s : list byte) : outcome (list byte) :=
  if (n <=? length s)%nat then Done (take n s)
  else Panicked "slice bounds out of range".

(** ** encoding/hex *)
Module hex.

Definition hextable : string := "0123456789abcdef".

Definition digit (n : N) : ascii :=
  match String.get (N.to_nat n) hextable with
  | Some c => c
  | None => "0"%char
  end.

Fixpoint EncodeToString (src : list byte) : string :=
  match src with
  | [] => EmptyString
  | v :: rest =>
      String (digit (N.shiftr (Byte.to_N v) 4))
        (String (digit (N.land (Byte.to_N v) 15)) (EncodeToString rest))
  end.

Definition fromHexChar (c : ascii) : option N :=
  let n := N_of_ascii c in
  if (48 <=? n)%N && (n <=? 57)%N then Some (n - 48)%N
  else if (97 <=? n)%N && (n <=? 102)%N then Some (n - 97 + 10)%N
  else if (65 <=? n)%N && (n <=? 70)%N then Some (n - 65 + 10)%N
  else None.

(** [None] stands for both [ErrLength] and [InvalidByteError]. *)
Fixpoint DecodeString (s : string) : option (list byte) :=
  match s with
  | EmptyString => Some []
  | String _ EmptyString => None
  | String a (String b rest) =>
      match fromHexChar a, fromHexChar b with
      | Some x, Some y =>
          match Byte.of_N (N.lor (N.shiftl x 4) y), DecodeString rest with
          | Some v, Some d => Some (v :: d)
          | _, _ => None
          end
      | _, _ => None
      end
  end.

(** A string of hexadecimal digits, of either case. *)
Fixpoint all_hex (s : string) : bool :=
  match s with
  | EmptyString => true
  | String c rest => bool_decide (is_Some (fromHexChar c)) && all_hex rest
  end.

End hex.

(** ** bson *)
Module bson.

(** [type ObjectId string]: the raw bytes of the identifier. *)
Definition ObjectId : Type := string.

(** [ObjectIdHex] panics unless its argument decodes to 12 bytes. *)
Definition ObjectIdHex (s : string) : outcome ObjectId :=
  match hex.DecodeString s with
  | Some d =>
      if (length d =? 12)%nat then Done (string_of_list_byte d)
      else Panicked ("invalid input to ObjectIdHex: " ++ s)
  | None => Panicked ("invalid input to ObjectIdHex: " ++ s)
  end.

Definition Hex (id : ObjectId) : string :=
  hex.EncodeToString (list_byte_of_string id).

(** The identifiers the specification calls valid. *)
Definition valid_hex24 (s : string) : Prop :=
  String.length s = 24%nat /\ hex.all_hex s = true.

End bson.

(** [time.Time], as the instant it denotes. *)
Definition time_Time : Type := Z.

(** ** mgo *)
Module mgo.

Definition ErrNotFound : error := errors_New "not found".

(** Duplicate key on [_id]. *)
Definition ErrDup : error := LastError 11000.

Record DBRef (RefId : Type) : Type := mkDBRef {
  Collection : string;
  Id : option RefId;          (* interface{}; nil is [None] *)
  Database : string
}.
Arguments mkDBRef {RefId}.
Arguments Collection {RefId}.
Arguments Id {RefId}.
Arguments Database {RefId}.

#[global] Instance DBRef_zero {RefId} : Zero (DBRef RefId) :=
  mkDBRef "" None "".

#[global] Instance DBRef_eq_dec `{EqDecision RefId} : EqDecision (DBRef RefId).
Proof. solve_decision. Defined.

End mgo.

(** ** model *)
Module User.

(** Modelled from the spec: [model.User], whose declaration is not among
    the sources.  Its fields are those named by the struct literal in
    [UserService.Add] and listed for user documents in section 6; the
    fields of the embedded [security.User] are promoted. *)
Record t : Type := mk {
  ID : bson.ObjectId;
  Username : string;
  Password : string;
  Salt : string;
  Email : string;
  Firstname : string;
  Lastname : string
}.

#[global] Instance t_zero : Zero t := mk "" "" "" "" "" "" "".

#[global] Instance t_eq_dec : EqDecision t.
Proof. solve_decision. Defined.

Definition with_Salt (s : string) (u : t) : t :=
  mk (ID u) (Username u) (Password u) s (Email u) (Firstname u) (Lastname u).

Definition with_Password (p : string) (u : t) : t :=
  mk (ID u) (Username u) p (Salt u) (Email u) (Firstname u) (Lastname u).

End User.

Module Article.

(** [model.Article].  [Tag], [Image] and [Vignette] are types of the
    model package declared elsewhere; the services only copy their
    values, so they are parameters, as is the dynamic type held in
    [DBRef.Id]. *)
Record t (TTag TImage TVignette TRefId : Type) : Type := mk {
  ID : bson.ObjectId;
  Titre : string;
  Pretty : string;
  Texte : string;
  Tags : list TTag;
  Image : TImage;
  Vignette : TVignette;
  Status : string;
  Create : time_Time;
  Modified : time_Time;
  UserRef : mgo.DBRef TRefId
}.
Arguments mk {TTag TImage TVignette TRefId}.
Arguments ID {TTag TImage TVignette TRefId}.
Arguments Titre {TTag TImage TVignette TRefId}.
Arguments Pretty {TTag TImage TVignette TRefId}.
Arguments Texte {TTag TImage TVignette TRefId}.
Arguments Tags {TTag TImage TVignette TRefId}.
Arguments Image {TTag TImage TVignette TRefId}.
Arguments Vignette {TTag TImage TVignette TRefId}.
Arguments Status {TTag TImage TVignette TRefId}.
Arguments Create {TTag TImage TVignette TRefId}.
Arguments Modified {TTag TImage TVignette TRefId}.
Arguments UserRef {TTag TImage TVignette TRefId}.

#[global] Instance t_zero {TTag TRefId} `{Zero TImage, Zero TVignette} :
  Zero (t TTag TImage TVignette TRefId) :=
  mk "" "" "" "" [] zero zero "" 0%Z 0%Z zero.

#[global] Instance t_eq_dec `{EqDecision TTag, EqDecision TImage,
    EqDecision TVignette, EqDecision TRefId} :
  EqDecision (t TTag TImage TVignette TRefId).
Proof. solve_decision. Defined.

End Article.

(** ** Documents, selectors and the collection operations of mgo *)

(** The values that occur in the [bson.M] maps the services build.
    [BRef] is a sub-document [{"$ref": c, "$id": i}]; a [mgo.DBRef]
    marshals to the same shape, its empty [Database] omitted. *)
Inductive bval (TTag TImage TVignette TRefId : Type) : Type :=
| BString (s : string)
| BObjectId (o : bson.ObjectId)
| BTime (t : time_Time)
| BTags (l : list TTag)
| BImage (i : TImage)
| BVignette (v : TVignette)
| BRef (r : mgo.DBRef TRefId).
Arguments BString {TTag TImage TVignette TRefId} s.
Arguments BObjectId {TTag TImage TVignette TRefId} o.
Arguments BTime {TTag TImage TVignette TRefId} t.
Arguments BTags {TTag TImage TVignette TRefId} l.
Arguments BImage {TTag TImage TVignette TRefId} i.
Arguments BVignette {TTag TImage TVignette TRefId} v.
Arguments BRef {TTag TImage TVignette TRefId} r.

#[global] Instance bval_eq_dec `{EqDecision TTag, EqDecision TImage,
    EqDecision TVignette, EqDecision TRefId} :
  EqDecision (bval TTag TImage TVignette TRefId).
Proof. solve_decision. Defined.

Section Service.

Context {Tag Image Vignette RefId : Type}.
Context `{!EqDecision Tag, !EqDecision Image, !EqDecision Vignette,
          !EqDecision RefId}.
Context `{!Zero Image, !Zero Vignette}.

Local Abbreviation Article := (Article.t Tag Image Vignette RefId).
Local Abbreviation value := (bval Tag Image Vignette RefId).
Local Abbreviation M_ := (gmap string value).

(** What the driver needs of a struct stored in a collection: its
    marshalled fields, and the struct read back after a [$set]. *)
Class Document (D : Type) : Type := {
  doc_id : D -> bson.ObjectId;
  doc_field : D -> string -> option value;
  doc_set : M_ -> D -> D;
  doc_id_field : forall d, doc_field d "_id" = Some (BObjectId (doc_id d));
  doc_set_id : forall m d, doc_id (doc_set m d) = doc_id d
}.

Definition set_string (m : M_) (k : string) (old : string) : string :=
  match m !! k with Some (BString s) => s | _ => old end.

Definition set_time (m : M_) (k : string) (old : time_Time) : time_Time :=
  match m !! k with Some (BTime t) => t | _ => old end.

Definition set_tags (m : M_) (k : string) (old : list Tag) : list Tag :=
  match m !! k with Some (BTags l) => l | _ => old end.

Definition set_image (m : M_) (k : string) (old : Image) : Image :=
  match m !! k with Some (BImage i) => i | _ => old end.

Definition set_vignette (m : M_) (k : string) (old : Vignette) : Vignette :=
  match m !! k with Some (BVignette v) => v | _ => old end.

Definition set_ref (m : M_) (k : string) (old : mgo.DBRef RefId) :
  mgo.DBRef RefId :=
  match m !! k with Some (BRef r) => r | _ => old end.

Definition user_field (u : User.t) (k : string) : option value :=
  if String.eqb k "_id" then Some (BObjectId (User.ID u))
  else if String.eqb k "username" then Some (BString (User.Username u))
  else if String.eqb k "password" then Some (BString (User.Password u))
  else if String.eqb k "salt" then Some (BString (User.Salt u))
  else if String.eqb k "email" then Some (BString (User.Email u))
  else if String.eqb k "firstname" then Some (BString (User.Firstname u))
  else if String.eqb k "lastname" then Some (BString (User.Lastname u))
  else None.

Definition user_set (m : M_) (u : User.t) : User.t :=
  User.mk (User.ID u)
    (set_string m "username" (User.Username u))
    (set_string m "password" (User.Password u))
    (set_string m "salt" (User.Salt u))
    (set_string m "email" (User.Email u))
    (set_string m "firstname" (User.Firstname u))
    (set_string m "lastname" (User.Lastname u)).

#[global] Instance User_Document : Document User.t.
Proof.
  refine {| doc_id := User.ID; doc_field := user_field;
            doc_set := user_set |}; reflexivity.
Defined.

Definition article_field (a : Article) (k : string) : option value :=
  if String.eqb k "_id" then Some (BObjectId (Article.ID a))
  else if String.eqb k "titre" then Some (BString (Article.Titre a))
  else if String.eqb k "pretty" then Some (BString (Article.Pretty a))
  else if String.eqb k "texte" then Some (BString (Article.Texte a))
  else if String.eqb k "tags" then Some (BTags (Article.Tags a))
  else if String.eqb k "image" then Some (BImage (Article.Image a))
  else if String.eqb k "vignette" then Some (BVignette (Article.Vignette a))
  else if String.eqb k "status" then Some (BString (Article.Status a))
  else if String.eqb k "create" then Some (BTime (Article.Create a))
  else if String.eqb k "modified" then Some (BTime (Article.Modified a))
  else if String.eqb k "userref" then Some (BRef (Article.UserRef a))
  else None.

Definition article_set (m : M_) (a : Article) : Article :=
  Article.mk (Article.ID a)
    (set_string m "titre" (Article.Titre a))
    (set_string m "pretty" (Article.Pretty a))
    (set_string m "texte" (Article.Texte a))
    (set_tags m "tags" (Article.Tags a))
    (set_image m "image" (Article.Image a))
    (set_vignette m "vignette" (Article.Vignette a))
    (set_string m "status" (Article.Status a))
    (set_time m "create" (Article.Create a))
    (set_time m "modified" (Article.Modified a))
    (set_ref m "userref" (Article.UserRef a)).

#[global] Instance Article_Document : Document Article.
Proof.
  refine {| doc_id := Article.ID; doc_field := article_field;
            doc_set := article_set |}; reflexivity.
Defined.

(** A document matches a selector when it carries every pair of it;
    the nil selector is the empty map. *)
Definition matches `{Document D} (sel : M_) (d : D) : bool :=
  bool_decide (map_Forall (fun k v => doc_field d k = Some v) sel).

Definition by_id (id : bson.ObjectId) : M_ := {[ "_id" := BObjectId id ]}.

Fixpoint remove_first {D} (p : D -> bool) (c : list D) : option (list D) :=
  match c with
  | [] => None
  | d :: rest =>
      if p d then Some rest
      else match remove_first p rest with
           | Some rest' => Some (d :: rest')
           | None => None
           end
  end.

Fixpoint update_first {D} (p : D -> bool) (f : D -> D) (c : list D) :
  option (list D) :=
  match c with
  | [] => None
  | d :: rest =>
      if p d then Some (f d :: rest)
      else match update_first p f rest with
           | Some rest' => Some (d :: rest')
           | None => None
           end
  end.

(** Only the [$set] operator is used by the services. *)
Definition apply_update `{Document D} (upd : gmap string M_) (d : D) : D :=
  match upd !! "$set" with
  | Some m => doc_set m d
  | None => d
  end.

(** The operations below act on the content of one collection, in
    insertion order, on a reachable server.  [safe] is the session's
    safe mode (on in a dialled session).  As mgo documents them,
    [Remove] and [Update] act on the first matching document and, in
    safe mode, return [ErrNotFound] when none is found; [Insert]
    refuses a duplicate [_id], and reports it in safe mode only.
    Selectors are compared as values: an [_id] in a selector is taken
    to be a 12-byte identifier, the only kind the driver encodes. *)
Definition coll_Find `{Document D} (sel : M_) (c : list D) : list D :=
  List.filter (matches sel) c.

Definition coll_One {D} (q : list D) : option D := head q.

Definition coll_Insert `{Document D} (safe : bool) (d : D) (c : list D) :
  list D * option error :=
  if existsb (matches (by_id (doc_id d))) c
  then (c, if safe then Some mgo.ErrDup else None)
  else ((c ++ [d])%list, None).

Definition coll_Remove `{Document D} (safe : bool) (sel : M_) (c : list D) :
  list D * option error :=
  match remove_first (matches sel) c with
  | Some c' => (c', None)
  | None => (c, if safe then Some mgo.ErrNotFound else None)
  end.

Definition coll_Update `{Document D} (safe : bool) (sel : M_)
    (upd : gmap string M_) (c : list D) : list D * option error :=
  match update_first (matches sel) (apply_update upd) c with
  | Some c' => (c', None)
  | None => (c, if safe then Some mgo.ErrNotFound else None)
  end.

(** ** The world and the computations over it *)

(** The two collections, the session's safe mode, the number of open
    session copies, and how many identifiers and salts have been drawn. *)
Record World : Type := mkWorld {
  users : list User.t;
  articles : list Article;
  safe : bool;
  sessions : nat;
  idCtr : nat;
  saltCtr : nat
}.

Definition with_users (c : list User.t) (w : World) : World :=
  mkWorld c (articles w) (safe w) (sessions w) (idCtr w) (saltCtr w).

Definition with_articles (c : list Article) (w : World) : World :=
  mkWorld (users w) c (safe w) (sessions w) (idCtr w) (saltCtr w).

Definition with_sessions (n : nat) (w : World) : World :=
  mkWorld (users w) (articles w) (safe w) n (idCtr w) (saltCtr w).

Definition with_idCtr (n : nat) (w : World) : World :=
  mkWorld (users w) (articles w) (safe w) (sessions w) n (saltCtr w).

Definition with_saltCtr (n : nat) (w : World) : World :=
  mkWorld (users w) (articles w) (safe w) (sessions w) (idCtr w) n.

Definition M (A : Type) : Type := World -> outcome A * World.

#[global] Instance M_ret : MRet M := fun A a w => (Done a, w).

#[global] Instance M_bind : MBind M :=
  fun A B k m w =>
    match m w with
    | (Done a, w') => k a w'
    | (Panicked v, w') => (Panicked v, w')
    end.

Definition lift {A} (o : outcome A) : M A := fun w => (o, w).

(** [defer d]: [d] runs when the body returns and when it panics. *)
Definition defer {A} (d : M unit) (body : M A) : M A :=
  fun w => let (r, w') := body w in (r, snd (d w')).

(** [defer func() { if r := recover(); r != nil { ... } }()]: a panic
    of the body is stopped and the function returns [results], its
    named results after the deferred function has run. *)
Definition recover {A} (results : A) (body : M A) : M A :=
  fun w =>
    match body w with
    | (Panicked _, w') => (Done results, w')
    | r => r
    end.

(** [mongo.Copy()] and [mongo.Close()]. *)
Definition Copy : M unit := fun w => (Done tt, with_sessions (S (sessions w)) w).
Definition Close : M unit := fun w => (Done tt, with_sessions (pred (sessions w)) w).

(** A collection of the database, [mongo.Database.C(name)]. *)
Record Coll (D : Type) : Type := mkColl {
  content : World -> list D;
  store : list D -> World -> World
}.
Arguments content {D}.
Arguments store {D}.

Definition C_user : Coll User.t := mkColl _ users with_users.
Definition C_article : Coll Article := mkColl _ articles with_articles.

(** [c.Find(sel).One(&result)]: the first match, or [ErrNotFound] with
    [result] untouched. *)
Definition Find_One `{Document D} (c : Coll D) (sel : M_) : M (option D) :=
  fun w => (Done (coll_One (coll_Find sel (content c w))), w).

(** [c.Find(sel).All(&result)]. *)
Definition Find_All `{Document D} (c : Coll D) (sel : M_) :
  M (list D * option error) :=
  fun w => (Done (coll_Find sel (content c w), None), w).

Definition FindId_One `{Document D} (c : Coll D) (id : bson.ObjectId) :
  M (option D) :=
  Find_One c (by_id id).

Definition Insert `{Document D} (c : Coll D) (d : D) : M (option error) :=
  fun w => let (c', e) := coll_Insert (safe w) d (content c w) in
           (Done e, store c c' w).

Definition Remove `{Document D} (c : Coll D) (sel : M_) : M (option error) :=
  fun w => let (c', e) := coll_Remove (safe w) sel (content c w) in
           (Done e, store c c' w).

Definition Update `{Document D} (c : Coll D) (sel : M_)
    (upd : gmap string M_) : M (option error) :=
  fun w => let (c', e) := coll_Update (safe w) sel upd (content c w) in
           (Done e, store c c' w).

(** ** The collaborators of the services *)

(** [bson.NewObjectId()] and the entropy behind
    [security.GenerateSalt()]: the n-th value each will produce. *)
Variable id_source : nat -> bson.ObjectId.
Variable salt_source : nat -> list byte * option error.

(** [security.HashPassword(password, salt)],
    [security.CheckPassword(password, salt, hash)] and
    [utils.SanitizeTitle(title)]. *)
Variable security_HashPassword :
  list byte -> list byte -> list byte * option error.
Variable security_CheckPassword :
  list byte -> list byte -> list byte -> bool * option error.
Variable utils_SanitizeTitle : string -> string.

Definition bson_NewObjectId : M bson.ObjectId :=
  fun w => (Done (id_source (idCtr w)), with_idCtr (S (idCtr w)) w).

Definition security_GenerateSalt : M (list byte * option error) :=
  fun w => (Done (salt_source (saltCtr w)), with_saltCtr (S (saltCtr w)) w).

(** ** service.UserService *)

Definition UserService_Get (username password : string) :
  M (User.t * option error) :=
  Copy ;;
  defer Close (
    found ← Find_One C_user {[ "username" := BString username ]};
    match found with
    | None => mret (zero, Some mgo.ErrNotFound)
    | Some user =>
        let '(valid, err) :=
          security_CheckPassword (list_byte_of_string password)
            (list_byte_of_string (User.Salt user))
            (list_byte_of_string (User.Password user)) in
        match err with
        | Some e => mret (zero, Some e)
        | None =>
            if valid then mret (user, None)
            else mret (zero, Some (errors_New "Invalid password"))
        end
    end).

(** [user] is still the zero value whenever [ObjectIdHex] panics. *)
Definition UserService_GetByID (id : string) : M (User.t * option error) :=
  recover (zero, Some (errors_New "Incorrect ID")) (
    Copy ;;
    defer Close (
      oid ← lift (bson.ObjectIdHex id);
      found ← FindId_One C_user oid;
      match found with
      | None => mret (zero, Some mgo.ErrNotFound)
      | Some user => mret (user, None)
      end)).

Definition UserService_FindAll : M (list User.t * option error) :=
  Copy ;;
  defer Close (
    '(users, err) ← Find_All C_user ∅;
    match err with
    | Some _ => mret (users, Some (errors_New "Error"))
    | None => mret (users, None)
    end).

Definition UserService_Add (user : User.t) : M (User.t * option error) :=
  Copy ;;
  defer Close (
    id ← bson_NewObjectId;
    '(salt, err) ← security_GenerateSalt;
    match err with
    | Some _ => mret (zero, Some (errors_New "Error when generatiing Salt"))
    | None =>
        salt32 ← lift (slice_to 32 salt);
        let user := User.with_Salt (string_of_list_byte salt32) user in
        let '(password, err) :=
          security_HashPassword (list_byte_of_string (User.Password user))
            salt in
        match err with
        | Some e => mret (zero, Some e)
        | None =>
            password32 ← lift (slice_to 32 password);
            let user :=
              User.with_Password (string_of_list_byte password32) user in
            Insert C_user
                   (User.mk id (User.Username user) (User.Password user)
                      (User.Salt user) (User.Email user)
                      (User.Firstname user) (User.Lastname user)) ;;
            found ← FindId_One C_user id;
            match found with
            | None => mret (zero, Some (errors_New "User not saved"))
            | Some user => mret (user, None)
            end
        end
    end).

Definition UserService_Delete (user : User.t) : M (option error) :=
  Copy ;;
  defer Close (
    Remove C_user {[ "_id" := BObjectId (User.ID user);
                     "username" := BString (User.Username user) ]}).

Definition UserService_Update (id : string) (user : User.t) :
  M (option error) :=
  recover (Some (errors_New "Incorrect ID")) (
    Copy ;;
    defer Close (
      '(salt, err) ← security_GenerateSalt;
      match err with
      | Some e => mret (Some e)
      | None =>
          salt32 ← lift (slice_to 32 salt);
          let user := User.with_Salt (string_of_list_byte salt32) user in
          let '(password, err) :=
            security_HashPassword (list_byte_of_string (User.Password user))
              salt in
          match err with
          | Some e => mret (Some e)
          | None =>
              password32 ← lift (slice_to 32 password);
              let user :=
                User.with_Password (string_of_list_byte password32) user in
              oid ← lift (bson.ObjectIdHex id);
              Update C_user {[ "_id" := BObjectId oid ]}
                {[ "$set" :=
                     {[ "username" := BString (User.Username user);
                        "lastname" := BString (User.Lastname user);
                        "firstname" := BString (User.Firstname user);
                        "password" := BString (User.Password user);
                        "salt" := BString (User.Salt user);
                        "email" := BString (User.Email user) ]} ]}
          end
      end)).

(** ** service.ArticleService *)

Definition ArticleService_GetByID (id : string) :
  M (Article * option error) :=
  Copy ;;
  defer Close (
    oid ← lift (bson.ObjectIdHex id);
    found ← FindId_One C_article oid;
    match found with
    | None => mret (zero, Some (errors_New "No article"))
    | Some article => mret (article, None)
    end).

Definition ArticleService_GetByPretty (pretty : string) :
  M (Article * option error) :=
  Copy ;;
  defer Close (
    found ← Find_One C_article {[ "pretty" := BString pretty ]};
    match found with
    | None => mret (zero, Some (errors_New "No article"))
    | Some article => mret (article, None)
    end).

Definition ArticleService_Add (article : Article) :
  M (Article * option error) :=
  Copy ;;
  defer Close (
    id ← bson_NewObjectId;
    let pretty := utils_SanitizeTitle (Article.Titre article) in
    Insert C_article
           (Article.mk id (Article.Titre article) pretty
              (Article.Texte article) (Article.Tags article)
              (Article.Image article) (Article.Vignette article)
              (Article.Status article) (Article.Create article)
              (Article.Create article)
              (mgo.mkDBRef "user" (mgo.Id (Article.UserRef article)) "")) ;;
    found ← FindId_One C_article id;
    match found with
    | None => mret (zero, Some mgo.ErrNotFound)
    | Some article => mret (article, None)
    end).

Definition ArticleService_FindByStatus (status : string) :
  M (list Article * option error) :=
  Copy ;;
  defer Close (
    '(articles, err) ← Find_All C_article {[ "status" := BString status ]};
    match err with
    | Some _ => mret (articles, Some (errors_New "Error in FindByStatus"))
    | None => mret (articles, None)
    end).

Definition ArticleService_FindAll : M (list Article * option error) :=
  Copy ;;
  defer Close (
    '(articles, err) ← Find_All C_article ∅;
    match err with
    | Some _ => mret (articles, Some (errors_New "Error in FindAll"))
    | None => mret (articles, None)
    end).

Definition ArticleService_Delete (article : Article) : M (option error) :=
  Copy ;;
  defer Close (
    Remove C_article {[ "_id" := BObjectId (Article.ID article);
                        "titre" := BString (Article.Titre article) ]}).

Definition ArticleService_Update (id : string) (article : Article) :
  M (option error) :=
  Copy ;;
  defer Close (
    let pretty := utils_SanitizeTitle (Article.Titre article) in
    oid ← lift (bson.ObjectIdHex id);
    Update C_article {[ "_id" := BObjectId oid ]}
      {[ "$set" :=
           {[ "titre" := BString (Article.Titre article);
              "pretty" := BString pretty;
              "image" := BImage (Article.Image article);
              "vignette" := BVignette (Article.Vignette article);
              "texte" := BString (Article.Texte article);
              "status" := BString (Article.Status article);
              "modified" := BTime (Article.Modified article);
              "tags" := BTags (Article.Tags article);
              "userref" :=
                BRef (mgo.mkDBRef (mgo.Collection (Article.UserRef article))
                        (mgo.Id (Article.UserRef article)) "") ]} ]}).

End Service.

(** ** A small instance, for running the services *)
Module demo.

Definition ids (n : nat) : bson.ObjectId :=
  "00000000000" ++ String (ascii_of_nat (48 + n)) "".

Definition salts (n : nat) : list byte * option error :=
  (repeat x2a 32, None).

Definition no_entropy (n : nat) : list byte * option error :=
  ([], Some (errors_New "entropy source failed")).

Definition hash (password salt : list byte) : list byte * option error :=
  ((password ++ rev salt)%list, None).

Definition check (password salt h : list byte) : bool * option error :=
  (String.eqb (string_of_list_byte (take 32 (fst (hash password salt))))
     (string_of_list_byte h), None).

Fixpoint slug (title : string) : string :=
  match title with
  | EmptyString => EmptyString
  | String c rest =>
      String (if Ascii.eqb c " " then "-"%char else c) (slug rest)
  end.

Definition empty : @World unit unit unit unit := mkWorld [] [] true 0 0 0.

Definition alice : User.t :=
  User.mk "00000000000a" "alice"
    (string_of_list_byte (take 32 (fst (hash (list_byte_of_string "rabbit")
                                          (repeat x2a 32)))))
    (string_of_list_byte (repeat x2a 32))
    "alice@example.org" "Alice" "Liddell".

(** Alice's identifier under another username. *)
Definition impostor : User.t :=
  User.mk "00000000000a" "mallory" "" "" "" "" "".

Definition newcomer : User.t :=
  User.mk "" "bob" "carrots" "ignored" "bob@example.org" "Bob" "Hare".

Definition with_alice : @World unit unit unit unit :=
  mkWorld [alice] [] true 0 0 0.

Definition post : Article.t unit unit unit unit :=
  Article.mk "00000000000p" "Down the hole" "caller-slug" "text" [tt] tt tt
    "draft" 1000%Z 2000%Z (mgo.mkDBRef "people" (Some tt) "blog").

(** The stored post under a new title, with a slug of the caller's. *)
Definition retitled : Article.t unit unit unit unit :=
  Article.mk "" "Through the glass" "caller-slug" "text" [tt] tt tt
    "published" 1000%Z 3000%Z (mgo.mkDBRef "people" (Some tt) "blog").

Definition with_post : @World unit unit unit unit :=
  mkWorld [] [post] true 0 0 0.

End demo.

(** * Identifier parsing *)

Lemma hex_digit_roundtrip (b : byte) :
  hex.fromHexChar (hex.digit (N.shiftr (Byte.to_N b) 4))
    = Some (N.shiftr (Byte.to_N b) 4)
  /\ hex.fromHexChar (hex.digit (N.land (Byte.to_N b) 15))
    = Some (N.land (Byte.to_N b) 15)
  /\ Byte.of_N (N.lor (N.shiftl (N.shiftr (Byte.to_N b) 4) 4)
                  (N.land (Byte.to_N b) 15)) = Some b.
Proof. destruct b; vm_compute; auto. Qed.

Lemma DecodeString_EncodeToString (bs : list byte) :
  hex.DecodeString (hex.EncodeToString bs) = Some bs.
Proof.
  induction bs as [|b bs IH]; [reflexivity|].
  destruct (hex_digit_roundtrip b) as (Hhi & Hlo & Hb).
  cbn [hex.EncodeToString hex.DecodeString].
  rewrite Hhi, Hlo, Hb, IH. reflexivity.
Qed.

Lemma length_list_byte_of_string (s : string) :
  length (list_byte_of_string s) = String.length s.
Proof.
  unfold list_byte_of_string. rewrite length_map.
  induction s as [|c s IH]; [reflexivity|]. cbn. now rewrite IH.
Qed.

Lemma ObjectIdHex_Hex (id : bson.ObjectId) :
  String.length id = 12%nat -> bson.ObjectIdHex (bson.Hex id) = Done id.
Proof.
  intros Hlen. unfold bson.ObjectIdHex, bson.Hex.
  rewrite DecodeString_EncodeToString, length_list_byte_of_string, Hlen.
  cbn. now rewrite string_of_list_byte_of_string.
Qed.

Lemma DecodeString_shape_upto (k : nat) :
  forall s d, (String.length s <= k)%nat -> hex.DecodeString s = Some d ->
    String.length s = (2 * length d)%nat /\ hex.all_hex s = true.
Proof.
  induction k as [|k IH]; intros s d Hk Hd;
    destruct s as [|a [|b rest]]; cbn in Hk, Hd; try lia; try discriminate;
    try (inversion Hd; auto; fail).
  destruct (hex.fromHexChar a) as [x|] eqn:Ha; [|discriminate].
  destruct (hex.fromHexChar b) as [y|] eqn:Hb; [|discriminate].
  destruct (Byte.of_N _) as [v|]; [|discriminate].
  destruct (hex.DecodeString rest) as [d'|] eqn:Hr; [|discriminate].
  inversion Hd; subst d.
  destruct (IH rest d') as [Hl Hh]; [lia|assumption|].
  split; [cbn; lia|].
  cbn [hex.all_hex]. rewrite Ha, Hb, Hh. reflexivity.
Qed.

Lemma DecodeString_shape (s : string) (d : list byte) :
  hex.DecodeString s = Some d ->
  String.length s = (2 * length d)%nat /\ hex.all_hex s = true.
Proof. apply (DecodeString_shape_upto (String.length s)). lia. Qed.

Lemma ObjectIdHex_Done_valid (s : string) (o : bson.ObjectId) :
  bson.ObjectIdHex s = Done o -> bson.valid_hex24 s.
Proof.
  unfold bson.ObjectIdHex, bson.valid_hex24.
  destruct (hex.DecodeString s) as [d|] eqn:Hd; [|discriminate].
  destruct (Nat.eqb_spec (length d) 12) as [Hl|]; [|discriminate].
  intros _. destruct (DecodeString_shape s d Hd) as [H1 H2].
  split; [lia|assumption].
Qed.

Lemma ObjectIdHex_panics (s : string) :
  ~ bson.valid_hex24 s ->
  bson.ObjectIdHex s = Panicked ("invalid input to ObjectIdHex: " ++ s).
Proof.
  intros Hn. pose proof (ObjectIdHex_Done_valid s) as H.
  unfold bson.ObjectIdHex in *.
  destruct (hex.DecodeString s) as [d|]; [|reflexivity].
  destruct (length d =? 12)%nat; [|reflexivity].
  exfalso. apply Hn. eapply H. reflexivity.
Qed.

Lemma fromHexChar_bound (c : ascii) (x : N) :
  hex.fromHexChar c = Some x -> (x < 16)%N.
Proof.
  unfold hex.fromHexChar. cbv zeta.
  repeat match goal with
  | |- context [(?a <=? ?b)%N] => destruct (N.leb_spec a b)
  end; cbn; intros Hx; inversion Hx; lia.
Qed.

Lemma pack_nibbles (x y : N) :
  (x < 16)%N -> (y < 16)%N -> is_Some (Byte.of_N (N.lor (N.shiftl x 4) y)).
Proof.
  intros Hx Hy.
  destruct (Byte.of_N (N.lor (N.shiftl x 4) y)) eqn:E; [eauto|].
  apply Byte.of_N_None_iff in E. exfalso.
  assert (Hlog : forall z, (z < 16)%N -> (N.log2 z < 4)%N).
  { intros z Hz. destruct (N.eq_dec z 0%N) as [->|Hz0]; [cbn; lia|].
    change 16%N with (2 ^ 4)%N in Hz. apply N.log2_lt_pow2; lia. }
  assert (N.lor (N.shiftl x 4) y < 256)%N; [|lia].
  destruct (N.eq_dec (N.lor (N.shiftl x 4) y) 0%N) as [->|Hne]; [lia|].
  change 256%N with (2 ^ 8)%N. apply N.log2_lt_pow2; [lia|].
  rewrite N.log2_lor. apply N.max_lub_lt.
  - destruct (N.eq_dec x 0%N) as [->|Hx0]; [reflexivity|].
    rewrite N.log2_shiftl by lia. specialize (Hlog x Hx). lia.
  - specialize (Hlog y Hy). lia.
Qed.

Lemma DecodeString_total (n : nat) :
  forall s, String.length s = (2 * n)%nat -> hex.all_hex s = true ->
    exists d, hex.DecodeString s = Some d /\ length d = n.
Proof.
  induction n as [|n IH]; intros s Hl Hh;
    destruct s as [|a [|b rest]]; cbn in Hl; try lia.
  - exists []. auto.
  - cbn [hex.all_hex] in Hh.
    apply andb_true_iff in Hh as [Ha Hh].
    apply andb_true_iff in Hh as [Hb Hh].
    apply bool_decide_eq_true in Ha as [x Ha], Hb as [y Hb].
    destruct (IH rest) as (d & Hd & Hn); [lia|assumption|].
    destruct (pack_nibbles x y) as [v Hv];
      eauto using fromHexChar_bound.
    exists (v :: d). cbn [hex.DecodeString].
    rewrite Ha, Hb, Hv, Hd. split; [reflexivity|cbn; lia].
Qed.

Lemma ObjectIdHex_valid (s : string) :
  bson.valid_hex24 s -> exists o, bson.ObjectIdHex s = Done o.
Proof.
  intros [Hl Hh].
  destruct (DecodeString_total 12 s) as (d & Hd & Hn); [lia|assumption|].
  unfold bson.ObjectIdHex. rewrite Hd, Hn. cbn. eauto.
Qed.

(** * The collection operations *)

Section Driver.

Context {Tag Image Vignette RefId : Type}.
Context `{!EqDecision Tag, !EqDecision Image, !EqDecision Vignette,
          !EqDecision RefId}.

Local Abbreviation value := (bval Tag Image Vignette RefId).
Local Abbreviation Article := (Article.t Tag Image Vignette RefId).
Local Abbreviation Doc := (@Document Tag Image Vignette RefId).

Lemma matches_by_id {D} {HD : Doc D} (i : bson.ObjectId) (d : D) :
  matches (by_id i) d = true <-> doc_id d = i.
Proof.
  unfold matches, by_id. rewrite bool_decide_eq_true, map_Forall_singleton.
  rewrite doc_id_field. split; [intros [= ->]; reflexivity|intros ->; reflexivity].
Qed.

Lemma matches_username (n : string) (u : User.t) :
  matches ({[ "username" := BString n ]} : gmap string value) u = true
  <-> User.Username u = n.
Proof.
  unfold matches. rewrite bool_decide_eq_true, map_Forall_singleton.
  cbn. split; [intros [= ->]; reflexivity|intros ->; reflexivity].
Qed.

Lemma matches_user_delete (i : bson.ObjectId) (n : string) (u : User.t) :
  matches ({[ "_id" := BObjectId i; "username" := BString n ]}
           : gmap string value) u = true
  <-> User.ID u = i /\ User.Username u = n.
Proof.
  unfold matches. rewrite bool_decide_eq_true.
  rewrite map_Forall_insert by reflexivity.
  rewrite map_Forall_singleton. cbn.
  split; [intros [[= ->] [= ->]]; auto|intros [-> ->]; auto].
Qed.

Lemma matches_article_delete (i : bson.ObjectId) (n : string) (a : Article) :
  matches ({[ "_id" := BObjectId i; "titre" := BString n ]}
           : gmap string value) a = true
  <-> Article.ID a = i /\ Article.Titre a = n.
Proof.
  unfold matches. rewrite bool_decide_eq_true.
  rewrite map_Forall_insert by reflexivity.
  rewrite map_Forall_singleton. cbn.
  split; [intros [[= ->] [= ->]]; auto|intros [-> ->]; auto].
Qed.

Lemma remove_first_None {D} (p : D -> bool) (c : list D) :
  (forall d, In d c -> p d = false) -> remove_first p c = None.
Proof.
  induction c as [|d c IH]; intros Hc; [reflexivity|].
  cbn. rewrite (Hc d) by (left; reflexivity).
  rewrite IH; [reflexivity|]. intros x Hx. apply Hc. right. exact Hx.
Qed.

Lemma update_first_None {D} (p : D -> bool) (f : D -> D) (c : list D) :
  (forall d, In d c -> p d = false) -> update_first p f c = None.
Proof.
  induction c as [|d c IH]; intros Hc; [reflexivity|].
  cbn. rewrite (Hc d) by (left; reflexivity).
  rewrite IH; [reflexivity|]. intros x Hx. apply Hc. right. exact Hx.
Qed.

Lemma update_first_hit {D} (p : D -> bool) (f : D -> D)
    (pre : list D) (y : D) (post : list D) :
  (forall d, In d pre -> p d = false) -> p y = true ->
  update_first p f (pre ++ y :: post)%list = Some (pre ++ f y :: post)%list.
Proof.
  intros Hpre Hy. induction pre as [|d pre IH]; cbn.
  - rewrite Hy. reflexivity.
  - rewrite (Hpre d) by (left; reflexivity).
    rewrite IH; [reflexivity|]. intros x Hx. apply Hpre. right. exact Hx.
Qed.

Lemma update_first_In {D} (p : D -> bool) (f : D -> D) (c c' : list D) :
  update_first p f c = Some c' ->
  forall x, In x c' -> In x c \/ exists y, In y c /\ p y = true /\ x = f y.
Proof.
  revert c'. induction c as [|d c IH]; intros c' Hu x Hx; [discriminate|].
  cbn in Hu. destruct (p d) eqn:Hd.
  - inversion Hu; subst c'. destruct Hx as [<-|Hx].
    + right. exists d. split; [left; reflexivity|auto].
    + left. right. exact Hx.
  - destruct (update_first p f c) as [r|]; [|discriminate].
    inversion Hu; subst c'. destruct Hx as [<-|Hx].
    + left. left. reflexivity.
    + destruct (IH r eq_refl x Hx) as [Hin|(y & Hy & Hpy & ->)].
      * left. right. exact Hin.
      * right. exists y. split; [right; exact Hy|auto].
Qed.

Lemma filter_first_hit {D} (p : D -> bool)
    (pre : list D) (y : D) (post : list D) :
  (forall d, In d pre -> p d = false) -> p y = true ->
  coll_One (List.filter p (pre ++ y :: post)%list) = Some y.
Proof.
  intros Hpre Hy. induction pre as [|d pre IH]; cbn.
  - rewrite Hy. reflexivity.
  - rewrite (Hpre d) by (left; reflexivity).
    apply IH. intros x Hx. apply Hpre. right. exact Hx.
Qed.

Lemma filter_no_hit {D} (p : D -> bool) (c : list D) :
  (forall d, In d c -> p d = false) -> List.filter p c = [].
Proof.
  induction c as [|d c IH]; intros Hc; [reflexivity|].
  cbn. rewrite (Hc d) by (left; reflexivity).
  apply IH. intros x Hx. apply Hc. right. exact Hx.
Qed.

Lemma One_Find_Some {D} {HD : Doc D} (sel : gmap string value)
    (c : list D) (d : D) :
  coll_One (coll_Find sel c) = Some d -> In d c /\ matches sel d = true.
Proof.
  unfold coll_One, coll_Find. intros Hh. apply List.filter_In.
  destruct (List.filter (matches sel) c) as [|x l]; [discriminate|].
  inversion Hh; subst x. left. reflexivity.
Qed.

Lemma coll_Insert_In {D} {HD : Doc D} (s : bool) (d : D) (c : list D) :
  forall x, In x (fst (coll_Insert s d c)) -> In x c \/ x = d.
Proof.
  intros x. unfold coll_Insert.
  destruct (existsb _ c); cbn; [auto|].
  rewrite in_app_iff. cbn. intuition.
Qed.

Lemma coll_Insert_fresh {D} {HD : Doc D} (s : bool) (d : D) (c : list D) :
  (forall x, In x c -> doc_id x <> doc_id d) ->
  coll_Insert s d c = ((c ++ [d])%list, None).
Proof.
  intros Hf. unfold coll_Insert.
  destruct (existsb _ c) eqn:E; [|reflexivity].
  apply existsb_exists in E as (x & Hx & Hm).
  apply matches_by_id in Hm. destruct (Hf x Hx Hm).
Qed.

Lemma coll_Update_In {D} {HD : Doc D} (s : bool) (sel : gmap string value)
    (upd : gmap string (gmap string value)) (c : list D) :
  forall x, In x (fst (coll_Update s sel upd c)) ->
    In x c \/ exists y, In y c /\ matches sel y = true
                        /\ x = apply_update upd y.
Proof.
  intros x. unfold coll_Update.
  destruct (update_first _ _ c) as [c'|] eqn:E; cbn; [|auto].
  apply (update_first_In _ _ _ _ E).
Qed.

End Driver.

(** * The services *)

Section Claims.

Context {Tag Image Vignette RefId : Type}.
Context `{!EqDecision Tag, !EqDecision Image, !EqDecision Vignette,
          !EqDecision RefId}.
Context `{!Zero Image, !Zero Vignette}.

Local Abbreviation value := (bval Tag Image Vignette RefId).
Local Abbreviation Article := (Article.t Tag Image Vignette RefId).
Local Abbreviation World := (@World Tag Image Vignette RefId).

Local Abbreviation insert_into :=
  (coll_Insert (Tag:=Tag) (Image:=Image) (Vignette:=Vignette) (RefId:=RefId)).

Variable id_source : nat -> bson.ObjectId.
Variable salt_source : nat -> list byte * option error.
Variable security_HashPassword :
  list byte -> list byte -> list byte * option error.
Variable security_CheckPassword :
  list byte -> list byte -> list byte -> bool * option error.
Variable utils_SanitizeTitle : string -> string.

Ltac run :=
  cbv [UserService_Get UserService_GetByID UserService_FindAll
       UserService_Add UserService_Delete UserService_Update
       ArticleService_GetByID ArticleService_GetByPretty ArticleService_Add
       ArticleService_FindByStatus ArticleService_FindAll
       ArticleService_Delete ArticleService_Update
       mbind M_bind mret M_ret defer recover Copy Close lift
       Find_One FindId_One Find_All Insert Remove Update
       bson_NewObjectId security_GenerateSalt
       C_user C_article content store
       with_users with_articles with_sessions with_idCtr with_saltCtr
       users articles safe sessions idCtr saltCtr Nat.pred fst snd].

Lemma Get_run (username password : string) (w : World) :
  UserService_Get security_CheckPassword username password w =
  (Done
     match coll_One (coll_Find ({[ "username" := BString username ]}
                                   : gmap string value) (users w)) with
     | None => (zero, Some mgo.ErrNotFound)
     | Some user =>
         match security_CheckPassword (list_byte_of_string password)
                 (list_byte_of_string (User.Salt user))
                 (list_byte_of_string (User.Password user)) with
         | (_, Some e) => (zero, Some e)
         | (true, None) => (user, None)
         | (false, None) => (zero, Some (errors_New "Invalid password"))
         end
     end, w).
Proof.
  destruct w as [us ars sf ss ic sc]. run.
  destruct (coll_One _) as [u|]; [|reflexivity].
  destruct (security_CheckPassword _ _ _) as [[] [e|]]; reflexivity.
Qed.

Lemma GetByID_run (id : string) (w : World) :
  UserService_GetByID id w =
  match bson.ObjectIdHex id with
  | Panicked _ => (Done (zero, Some (errors_New "Incorrect ID")), w)
  | Done oid =>
      (Done match coll_One (coll_Find (by_id oid : gmap string value) (users w)) with
            | None => (zero, Some mgo.ErrNotFound)
            | Some user => (user, None)
            end, w)
  end.
Proof.
  destruct w as [us ars sf ss ic sc]. run.
  destruct (bson.ObjectIdHex id) as [oid|v]; [|reflexivity].
  destruct (coll_One _) as [u|]; reflexivity.
Qed.

Lemma Update_run (id : string) (user : User.t) (w : World) :
  UserService_Update salt_source security_HashPassword id user w =
  let w1 := with_saltCtr (S (saltCtr w)) w in
  match salt_source (saltCtr w) with
  | (_, Some e) => (Done (Some e), w1)
  | (salt, None) =>
      match slice_to 32 salt with
      | Panicked _ => (Done (Some (errors_New "Incorrect ID")), w1)
      | Done salt32 =>
          match security_HashPassword
                  (list_byte_of_string (User.Password user)) salt with
          | (_, Some e) => (Done (Some e), w1)
          | (password, None) =>
              match slice_to 32 password with
              | Panicked _ => (Done (Some (errors_New "Incorrect ID")), w1)
              | Done password32 =>
                  match bson.ObjectIdHex id with
                  | Panicked _ => (Done (Some (errors_New "Incorrect ID")), w1)
                  | Done oid =>
                      Update C_user {[ "_id" := BObjectId oid ]}
                        {[ "$set" :=
                             {[ "username" := BString (User.Username user);
                                "lastname" := BString (User.Lastname user);
                                "firstname" := BString (User.Firstname user);
                                "password" :=
                                  BString (string_of_list_byte password32);
                                "salt" :=
                                  BString (string_of_list_byte salt32);
                                "email" := BString (User.Email user) ]} ]}
                        w1
                  end
              end
          end
      end
  end.
Proof.
  destruct w as [us ars sf ss ic sc]. run.
  destruct (salt_source sc) as [salt [e|]]; [reflexivity|].
  destruct (slice_to 32 salt) as [salt32|v]; [|reflexivity].
  cbn [User.with_Salt User.with_Password User.Password User.Salt
       User.Username User.Email User.Firstname User.Lastname].
  destruct (security_HashPassword _ salt) as [password [e|]]; [reflexivity|].
  destruct (slice_to 32 password) as [password32|v]; [|reflexivity].
  destruct (bson.ObjectIdHex id) as [oid|v]; [|reflexivity].
  destruct (coll_Update _ _ _ _) as [c' e]. reflexivity.
Qed.

Lemma Add_run (user : User.t) (w : World) :
  UserService_Add id_source salt_source security_HashPassword user w =
  let id := id_source (idCtr w) in
  let w1 := with_saltCtr (S (saltCtr w)) (with_idCtr (S (idCtr w)) w) in
  match salt_source (saltCtr w) with
  | (_, Some _) =>
      (Done (zero, Some (errors_New "Error when generatiing Salt")), w1)
  | (salt, None) =>
      match slice_to 32 salt with
      | Panicked v => (Panicked v, w1)
      | Done salt32 =>
          match security_HashPassword
                  (list_byte_of_string (User.Password user)) salt with
          | (_, Some e) => (Done (zero, Some e), w1)
          | (password, None) =>
              match slice_to 32 password with
              | Panicked v => (Panicked v, w1)
              | Done password32 =>
                  let c' :=
                    fst (insert_into (safe w)
                           (User.mk id (User.Username user)
                              (string_of_list_byte password32)
                              (string_of_list_byte salt32)
                              (User.Email user) (User.Firstname user)
                              (User.Lastname user)) (users w)) in
                  (Done match coll_One (coll_Find
                                (by_id id : gmap string value) c') with
                        | None => (zero, Some (errors_New "User not saved"))
                        | Some u => (u, None)
                        end, with_users c' w1)
              end
          end
      end
  end.
Proof.
  destruct w as [us ars sf ss ic sc]. run.
  destruct (salt_source sc) as [salt [e|]]; [reflexivity|].
  destruct (slice_to 32 salt) as [salt32|v]; [|reflexivity].
  cbn [User.with_Salt User.with_Password User.Password User.Salt
       User.Username User.Email User.Firstname User.Lastname].
  destruct (security_HashPassword _ salt) as [password [e|]]; [reflexivity|].
  destruct (slice_to 32 password) as [password32|v]; [|reflexivity].
  destruct (coll_Insert _ _ _) as [c' e].
  destruct (coll_One _) as [u|]; reflexivity.
Qed.

Lemma User_Delete_run (user : User.t) (w : World) :
  UserService_Delete user w =
  let r := coll_Remove (safe w)
             ({[ "_id" := BObjectId (User.ID user);
                 "username" := BString (User.Username user) ]}
              : gmap string value) (users w) in
  (Done (snd r), with_users (fst r) w).
Proof.
  destruct w as [us ars sf ss ic sc]. run.
  destruct (coll_Remove _ _ _) as [c' e]. reflexivity.
Qed.

Lemma Article_Delete_run (article : Article) (w : World) :
  ArticleService_Delete article w =
  let r := coll_Remove (safe w)
             ({[ "_id" := BObjectId (Article.ID article);
                 "titre" := BString (Article.Titre article) ]}
              : gmap string value) (articles w) in
  (Done (snd r), with_articles (fst r) w).
Proof.
  destruct w as [us ars sf ss ic sc]. run.
  destruct (coll_Remove _ _ _) as [c' e]. reflexivity.
Qed.

Lemma Article_GetByID_run (id : string) (w : World) :
  ArticleService_GetByID id w =
  match bson.ObjectIdHex id with
  | Panicked v => (Panicked v, w)
  | Done oid =>
      (Done match coll_One (coll_Find (by_id oid : gmap string value)
                              (articles w)) with
            | None => (zero, Some (errors_New "No article"))
            | Some article => (article, None)
            end, w)
  end.
Proof.
  destruct w as [us ars sf ss ic sc]. run.
  destruct (bson.ObjectIdHex id) as [oid|v]; [|reflexivity].
  destruct (coll_One _) as [u|]; reflexivity.
Qed.

Lemma Article_Add_run (article : Article) (w : World) :
  ArticleService_Add id_source utils_SanitizeTitle article w =
  let id := id_source (idCtr w) in
  let c' :=
    fst (insert_into (safe w)
           (Article.mk id (Article.Titre article)
              (utils_SanitizeTitle (Article.Titre article))
              (Article.Texte article) (Article.Tags article)
              (Article.Image article) (Article.Vignette article)
              (Article.Status article) (Article.Create article)
              (Article.Create article)
              (mgo.mkDBRef "user" (mgo.Id (Article.UserRef article)) ""))
           (articles w)) in
  (Done match coll_One (coll_Find (by_id id : gmap string value) c') with
        | None => (zero, Some mgo.ErrNotFound)
        | Some a => (a, None)
        end, with_articles c' (with_idCtr (S (idCtr w)) w)).
Proof.
  destruct w as [us ars sf ss ic sc]. run.
  destruct (coll_Insert _ _ _) as [c' e].
  destruct (coll_One _) as [u|]; reflexivity.
Qed.

Lemma Article_Update_run (id : string) (article : Article) (w : World) :
  ArticleService_Update utils_SanitizeTitle id article w =
  match bson.ObjectIdHex id with
  | Panicked v => (Panicked v, w)
  | Done oid =>
      Update C_article {[ "_id" := BObjectId oid ]}
        {[ "$set" :=
             {[ "titre" := BString (Article.Titre article);
                "pretty" :=
                  BString (utils_SanitizeTitle (Article.Titre article));
                "image" := BImage (Article.Image article);
                "vignette" := BVignette (Article.Vignette article);
                "texte" := BString (Article.Texte article);
                "status" := BString (Article.Status article);
                "modified" := BTime (Article.Modified article);
                "tags" := BTags (Article.Tags article);
                "userref" :=
                  BRef (mgo.mkDBRef
                          (mgo.Collection (Article.UserRef article))
                          (mgo.Id (Article.UserRef article)) "") ]} ]} w
  end.
Proof.
  destruct w as [us ars sf ss ic sc]. run.
  destruct (bson.ObjectIdHex id) as [oid|v]; [|reflexivity].
  destruct (coll_Update _ _ _ _) as [c' e]. reflexivity.
Qed.

Lemma matches_false_iff {D} (p : D -> bool) (P : D -> Prop) :
  (forall d, p d = true <-> P d) -> forall d, ~ P d -> p d = false.
Proof.
  intros Hp d Hn. destruct (p d) eqn:E; [|reflexivity].
  destruct Hn. apply Hp. exact E.
Qed.

(** C1 (amended).  [Get] fails and returns the zero user when no stored
    user has the username and when verification against the first user
    with that username fails, but not with one error: an unknown
    username yields the store's [ErrNotFound], unchanged; a password
    that [CheckPassword] reports invalid yields
    [errors.New("Invalid password")]; an error returned by
    [CheckPassword] itself is returned as it is.  The first two errors
    differ. *)
Theorem UserService_Get_failure_errors
    (w : World) (username password : string) :
  ((forall u, In u (users w) -> User.Username u <> username) ->
   UserService_Get security_CheckPassword username password w
   = (Done (zero, Some mgo.ErrNotFound), w))
  /\ (forall pre u post,
        users w = (pre ++ u :: post)%list ->
        (forall x, In x pre -> User.Username x <> username) ->
        User.Username u = username ->
        security_CheckPassword (list_byte_of_string password)
          (list_byte_of_string (User.Salt u))
          (list_byte_of_string (User.Password u)) = (false, None) ->
        UserService_Get security_CheckPassword username password w
        = (Done (zero, Some (errors_New "Invalid password")), w))
  /\ (forall pre u post valid e,
        users w = (pre ++ u :: post)%list ->
        (forall x, In x pre -> User.Username x <> username) ->
        User.Username u = username ->
        security_CheckPassword (list_byte_of_string password)
          (list_byte_of_string (User.Salt u))
          (list_byte_of_string (User.Password u)) = (valid, Some e) ->
        UserService_Get security_CheckPassword username password w
        = (Done (zero, Some e), w))
  /\ mgo.ErrNotFound <> errors_New "Invalid password".
Proof.
  split; [|split; [|split]]; [| | |discriminate].
  - intros Hno. rewrite Get_run. unfold coll_Find.
    rewrite filter_no_hit; [reflexivity|].
    intros d Hd. eapply matches_false_iff; [apply matches_username|].
    apply Hno, Hd.
  - intros pre u post Hw Hpre Hu Hchk. rewrite Get_run, Hw. unfold coll_Find.
    rewrite filter_first_hit.
    + rewrite Hchk. reflexivity.
    + intros d Hd. eapply matches_false_iff; [apply matches_username|].
      apply Hpre, Hd.
    + apply matches_username, Hu.
  - intros pre u post valid e Hw Hpre Hu Hchk.
    rewrite Get_run, Hw. unfold coll_Find.
    rewrite filter_first_hit.
    + rewrite Hchk. destruct valid; reflexivity.
    + intros d Hd. eapply matches_false_iff; [apply matches_username|].
      apply Hpre, Hd.
    + apply matches_username, Hu.
Qed.

(** C3 (amended).  For a malformed identifier, [GetByID] returns the
    zero user and the error "Incorrect ID".  [Update] never panics and
    never succeeds, and changes nothing but the count of salts drawn.
    Its error is that of [GenerateSalt] when salt generation fails;
    that of [HashPassword] when a salt of at least 32 bytes was
    generated and hashing fails; and "Incorrect ID" in every other
    case, that is, when the salt is shorter than 32 bytes or hashing
    returns without error. *)
Theorem malformed_id_is_Incorrect_ID
    (id : string) (user : User.t) (w : World) :
  ~ bson.valid_hex24 id ->
  UserService_GetByID id w
  = (Done (zero, Some (errors_New "Incorrect ID")), w)
  /\ (exists e,
        UserService_Update salt_source security_HashPassword id user w
        = (Done (Some e), with_saltCtr (S (saltCtr w)) w))
  /\ (forall salt e,
        salt_source (saltCtr w) = (salt, Some e) ->
        UserService_Update salt_source security_HashPassword id user w
        = (Done (Some e), with_saltCtr (S (saltCtr w)) w))
  /\ (forall salt h e,
        salt_source (saltCtr w) = (salt, None) -> (32 <= length salt)%nat ->
        security_HashPassword (list_byte_of_string (User.Password user)) salt
        = (h, Some e) ->
        UserService_Update salt_source security_HashPassword id user w
        = (Done (Some e), with_saltCtr (S (saltCtr w)) w))
  /\ (forall salt,
        salt_source (saltCtr w) = (salt, None) ->
        ((length salt < 32)%nat
         \/ exists h,
              security_HashPassword
                (list_byte_of_string (User.Password user)) salt
              = (h, None)) ->
        UserService_Update salt_source security_HashPassword id user w
        = (Done (Some (errors_New "Incorrect ID")),
           with_saltCtr (S (saltCtr w)) w)).
Proof.
  intros Hbad. apply ObjectIdHex_panics in Hbad.
  split; [|split; [|split; [|split]]].
  - rewrite GetByID_run, Hbad. reflexivity.
  - rewrite Update_run, Hbad. cbv zeta.
    destruct (salt_source (saltCtr w)) as [salt [e|]]; [eauto|].
    destruct (slice_to 32 salt); [|eauto].
    destruct (security_HashPassword _ salt) as [h [e|]]; [eauto|].
    destruct (slice_to 32 h); eauto.
  - intros salt e Hs. rewrite Update_run, Hs. reflexivity.
  - intros salt h e Hs Hls Hh. rewrite Update_run, Hs. cbv zeta.
    unfold slice_to. destruct (Nat.leb_spec 32 (length salt)); [|lia].
    rewrite Hh. reflexivity.
  - intros salt Hs Hcase. rewrite Update_run, Hbad, Hs. cbv zeta.
    unfold slice_to at 1.
    destruct (Nat.leb_spec 32 (length salt)) as [Hls|Hls]; [|reflexivity].
    destruct Hcase as [Hlt|[h Hh]]; [lia|]. rewrite Hh.
    destruct (slice_to 32 h); reflexivity.
Qed.

(** C4 (amended).  Let the argument carry a 12-byte identifier, and let
    no stored document carry both that identifier and the secondary
    field of the argument.  Then [Delete] removes nothing and returns
    what the driver's [Remove] reports: [ErrNotFound] in a safe-mode
    session, nil otherwise.  The world is unchanged, so a repeated call
    yields the same result. *)
Theorem Delete_without_match (w : World) :
  (forall user : User.t,
      String.length (User.ID user) = 12%nat ->
      (forall d, In d (users w) ->
         ~ (User.ID d = User.ID user
            /\ User.Username d = User.Username user)) ->
      UserService_Delete user w
      = (Done (if safe w then Some mgo.ErrNotFound else None), w)
      /\ UserService_Delete user (snd (UserService_Delete user w))
         = UserService_Delete user w)
  /\ (forall article : Article,
        String.length (Article.ID article) = 12%nat ->
        (forall d, In d (articles w) ->
           ~ (Article.ID d = Article.ID article
              /\ Article.Titre d = Article.Titre article)) ->
        ArticleService_Delete article w
        = (Done (if safe w then Some mgo.ErrNotFound else None), w)
        /\ ArticleService_Delete article
             (snd (ArticleService_Delete article w))
           = ArticleService_Delete article w).
Proof.
  split.
  - intros user _ Hno.
    assert (E : UserService_Delete user w
                = (Done (if safe w then Some mgo.ErrNotFound else None), w)).
    { rewrite User_Delete_run. unfold coll_Remove.
      rewrite remove_first_None.
      - destruct w as [us ars [] ss ic sc]; reflexivity.
      - intros d Hd.
        eapply matches_false_iff; [apply matches_user_delete|].
        apply Hno, Hd. }
    split; [exact E|]. rewrite E. cbn [snd]. exact E.
  - intros article _ Hno.
    assert (E : ArticleService_Delete article w
                = (Done (if safe w then Some mgo.ErrNotFound else None), w)).
    { rewrite Article_Delete_run. unfold coll_Remove.
      rewrite remove_first_None.
      - destruct w as [us ars [] ss ic sc]; reflexivity.
      - intros d Hd.
        eapply matches_false_iff; [apply matches_article_delete|].
        apply Hno, Hd. }
    split; [exact E|]. rewrite E. cbn [snd]. exact E.
Qed.

Lemma ArticleService_GetByID_malformed (id : string) (w : World) :
  ~ bson.valid_hex24 id ->
  ArticleService_GetByID id w
  = (Panicked ("invalid input to ObjectIdHex: " ++ id), w).
Proof.
  intros Hbad. rewrite Article_GetByID_run, (ObjectIdHex_panics id Hbad).
  reflexivity.
Qed.

Lemma user_set_applied (a b c d e f : string) (y : User.t) :
  apply_update
    ({[ "$set" :=
          {[ "username" := BString a; "lastname" := BString b;
             "firstname" := BString c; "password" := BString d;
             "salt" := BString e; "email" := BString f ]} ]}
     : gmap string (gmap string value)) y
  = User.mk (User.ID y) a d e f c b.
Proof. reflexivity. Qed.

Lemma article_set_applied (titre pretty texte status : string)
    (image : Image) (vignette : Vignette) (modified : time_Time)
    (tags : list Tag) (ref : mgo.DBRef RefId) (y : Article) :
  apply_update
    ({[ "$set" :=
          {[ "titre" := BString titre; "pretty" := BString pretty;
             "image" := BImage image; "vignette" := BVignette vignette;
             "texte" := BString texte; "status" := BString status;
             "modified" := BTime modified; "tags" := BTags tags;
             "userref" := BRef ref ]} ]}
     : gmap string (gmap string value)) y
  = Article.mk (Article.ID y) titre pretty texte tags image vignette status
      (Article.Create y) modified ref.
Proof. reflexivity. Qed.

Lemma user_set_fields (a b c d e f : string) :
  dom ({[ "username" := BString a; "lastname" := BString b;
          "firstname" := BString c; "password" := BString d;
          "salt" := BString e; "email" := BString f ]}
       : gmap string value)
  = ({[ "username"; "lastname"; "firstname"; "password"; "salt"; "email" ]}
     : gset string).
Proof. reflexivity. Qed.

Lemma slice_to_take (n : nat) (s : list byte) :
  (n <= length s)%nat -> slice_to n s = Done (take n s).
Proof.
  intros Hn. unfold slice_to.
  destruct (Nat.leb_spec n (length s)); [reflexivity|lia].
Qed.

Lemma slice_to_Done (n : nat) (s x : list byte) :
  slice_to n s = Done x -> x = take n s.
Proof.
  unfold slice_to. destruct (n <=? length s)%nat; [|discriminate].
  intros [= <-]. reflexivity.
Qed.

Lemma Update_users (sel : gmap string value)
    (upd : gmap string (gmap string value)) (w : World) :
  Update C_user sel upd w
  = (Done (snd (coll_Update (safe w) sel upd (users w))),
     with_users (fst (coll_Update (safe w) sel upd (users w))) w).
Proof.
  unfold Update. cbn [content store C_user].
  destruct (coll_Update _ _ _ _). reflexivity.
Qed.

Lemma Update_articles (sel : gmap string value)
    (upd : gmap string (gmap string value)) (w : World) :
  Update C_article sel upd w
  = (Done (snd (coll_Update (safe w) sel upd (articles w))),
     with_articles (fst (coll_Update (safe w) sel upd (articles w))) w).
Proof.
  unfold Update. cbn [content store C_article].
  destruct (coll_Update _ _ _ _). reflexivity.
Qed.

Lemma coll_Update_hit {D} {HD : @Document Tag Image Vignette RefId D}
    (s : bool) (oid : bson.ObjectId)
    (upd : gmap string (gmap string value)) (pre : list D) (y : D)
    (post : list D) :
  (forall x, In x pre -> doc_id x <> oid) -> doc_id y = oid ->
  coll_Update s {[ "_id" := BObjectId oid ]} upd (pre ++ y :: post)%list
  = ((pre ++ apply_update upd y :: post)%list, None).
Proof.
  intros Hpre Hy. unfold coll_Update.
  rewrite update_first_hit; [reflexivity| |].
  - intros d Hd. eapply matches_false_iff.
    + intros x. apply (matches_by_id oid x).
    + apply Hpre, Hd.
  - apply (matches_by_id oid y), Hy.
Qed.

(** What [UserService.Update] leaves in the collection. *)
Lemma User_Update_written (id : string) (user : User.t) (w : World) :
  forall d,
    In d (users (snd (UserService_Update salt_source security_HashPassword
                        id user w))) ->
    In d (users w)
    \/ exists salt h y,
         salt_source (saltCtr w) = (salt, None)
         /\ security_HashPassword
              (list_byte_of_string (User.Password user)) salt = (h, None)
         /\ In y (users w)
         /\ bson.ObjectIdHex id = Done (User.ID y)
         /\ d = User.mk (User.ID y) (User.Username user)
                  (string_of_list_byte (take 32 h))
                  (string_of_list_byte (take 32 salt))
                  (User.Email user) (User.Firstname user)
                  (User.Lastname user).
Proof.
  intros d. rewrite Update_run. cbv zeta.
  destruct (salt_source (saltCtr w)) as [salt [e|]] eqn:Hs;
    [destruct w; cbn; auto|].
  destruct (slice_to 32 salt) as [salt32|] eqn:Hs32;
    [|destruct w; cbn; auto].
  destruct (security_HashPassword _ salt) as [h [e|]] eqn:Hh;
    [destruct w; cbn; auto|].
  destruct (slice_to 32 h) as [h32|] eqn:Hh32; [|destruct w; cbn; auto].
  destruct (bson.ObjectIdHex id) as [oid|] eqn:Hid;
    [|destruct w; cbn; auto].
  rewrite Update_users. cbn [snd].
  replace (users (with_users _ _)) with
    (fst (coll_Update (safe w) ({[ "_id" := BObjectId oid ]}
                                : gmap string value)
            {[ "$set" :=
                 {[ "username" := BString (User.Username user);
                    "lastname" := BString (User.Lastname user);
                    "firstname" := BString (User.Firstname user);
                    "password" := BString (string_of_list_byte h32);
                    "salt" := BString (string_of_list_byte salt32);
                    "email" := BString (User.Email user) ]} ]}
            (users w))) by (destruct w; reflexivity).
  intros Hd. apply coll_Update_In in Hd as [Hd|(y & Hy & Hm & ->)];
    [left; exact Hd|].
  right. exists salt, h, y.
  apply (matches_by_id oid y) in Hm. cbn in Hm. subst oid.
  apply slice_to_Done in Hs32, Hh32. subst salt32 h32.
  rewrite user_set_applied. auto.
Qed.

(** What [UserService.Add] leaves in the collection. *)
Lemma User_Add_written (user : User.t) (w : World) :
  forall d,
    In d (users (snd (UserService_Add id_source salt_source
                        security_HashPassword user w))) ->
    In d (users w)
    \/ exists salt h,
         salt_source (saltCtr w) = (salt, None)
         /\ security_HashPassword
              (list_byte_of_string (User.Password user)) salt = (h, None)
         /\ d = User.mk (id_source (idCtr w)) (User.Username user)
                  (string_of_list_byte (take 32 h))
                  (string_of_list_byte (take 32 salt))
                  (User.Email user) (User.Firstname user)
                  (User.Lastname user).
Proof.
  intros d. rewrite Add_run. cbv zeta.
  destruct (salt_source (saltCtr w)) as [salt [e|]] eqn:Hs;
    [destruct w; cbn; auto|].
  destruct (slice_to 32 salt) as [salt32|] eqn:Hs32;
    [|destruct w; cbn; auto].
  destruct (security_HashPassword _ salt) as [h [e|]] eqn:Hh;
    [destruct w; cbn; auto|].
  destruct (slice_to 32 h) as [h32|] eqn:Hh32; [|destruct w; cbn; auto].
  cbn [snd]. intros Hd.
  assert (Hd' : In d (fst (insert_into (safe w)
                 (User.mk (id_source (idCtr w)) (User.Username user)
                    (string_of_list_byte h32) (string_of_list_byte salt32)
                    (User.Email user) (User.Firstname user)
                    (User.Lastname user)) (users w))))
    by (destruct w; exact Hd).
  apply coll_Insert_In in Hd' as [Hd'| ->]; [left; exact Hd'|].
  right. exists salt, h.
  apply slice_to_Done in Hs32, Hh32. subst salt32 h32. auto.
Qed.

Lemma User_Add_fresh (user : User.t) (w : World) (salt h : list byte) :
  salt_source (saltCtr w) = (salt, None) -> (32 <= length salt)%nat ->
  security_HashPassword (list_byte_of_string (User.Password user)) salt
  = (h, None) -> (32 <= length h)%nat ->
  (forall x, In x (users w) -> User.ID x <> id_source (idCtr w)) ->
  users (snd (UserService_Add id_source salt_source security_HashPassword
                user w))
  = (users w ++ [User.mk (id_source (idCtr w)) (User.Username user)
                   (string_of_list_byte (take 32 h))
                   (string_of_list_byte (take 32 salt))
                   (User.Email user) (User.Firstname user)
                   (User.Lastname user)])%list.
Proof.
  intros Hs Hls Hh Hlh Hfresh. rewrite Add_run, Hs. cbv zeta.
  rewrite (slice_to_take 32 salt Hls), Hh, (slice_to_take 32 h Hlh).
  rewrite (coll_Insert_fresh (D:=User.t)) by exact Hfresh.
  destruct w; reflexivity.
Qed.

Lemma Update_saltCtr (id : string) (user : User.t) (w : World) :
  saltCtr (snd (UserService_Update salt_source security_HashPassword
                  id user w)) = S (saltCtr w).
Proof.
  rewrite Update_run. cbv zeta.
  destruct (salt_source (saltCtr w)) as [salt [e|]];
    [destruct w; reflexivity|].
  destruct (slice_to 32 salt); [|destruct w; reflexivity].
  destruct (security_HashPassword _ salt) as [h [e|]];
    [destruct w; reflexivity|].
  destruct (slice_to 32 h); [|destruct w; reflexivity].
  destruct (bson.ObjectIdHex id); [|destruct w; reflexivity].
  rewrite Update_users. destruct w; reflexivity.
Qed.

Lemma Add_saltCtr (user : User.t) (w : World) :
  saltCtr (snd (UserService_Add id_source salt_source security_HashPassword
                  user w)) = S (saltCtr w).
Proof.
  rewrite Add_run. cbv zeta.
  destruct (salt_source (saltCtr w)) as [salt [e|]];
    [destruct w; reflexivity|].
  destruct (slice_to 32 salt); [|destruct w; reflexivity].
  destruct (security_HashPassword _ salt) as [h [e|]];
    [destruct w; reflexivity|].
  destruct (slice_to 32 h); destruct w; reflexivity.
Qed.

(** C2.  Whatever [Add] or [Update] writes to the user collection
    carries, together, the first 32 bytes of the salt drawn by this
    call and the first 32 bytes of [HashPassword] of the supplied
    password under that salt; the stored password is therefore the
    plaintext only if the hash itself is.  With a fresh identifier and
    32-byte salt and hash, [Add] does append such a document. *)
Theorem user_writes_store_salt_and_hash
    (id : string) (user : User.t) (w : World) :
  let salt := fst (salt_source (saltCtr w)) in
  let h := fst (security_HashPassword
                  (list_byte_of_string (User.Password user)) salt) in
  let hashed (d : User.t) :=
    User.Salt d = string_of_list_byte (take 32 salt)
    /\ User.Password d = string_of_list_byte (take 32 h)
    /\ (string_of_list_byte (take 32 h) <> User.Password user ->
        User.Password d <> User.Password user) in
  (forall d,
      In d (users (snd (UserService_Add id_source salt_source
                          security_HashPassword user w))) ->
      In d (users w) \/ hashed d)
  /\ (forall d,
        In d (users (snd (UserService_Update salt_source
                            security_HashPassword id user w))) ->
        In d (users w) \/ hashed d)
  /\ ((32 <= length salt)%nat -> (32 <= length h)%nat ->
      snd (salt_source (saltCtr w)) = None ->
      snd (security_HashPassword
             (list_byte_of_string (User.Password user)) salt) = None ->
      (forall x, In x (users w) -> User.ID x <> id_source (idCtr w)) ->
      exists d,
        users (snd (UserService_Add id_source salt_source
                      security_HashPassword user w))
        = (users w ++ [d])%list /\ hashed d).
Proof.
  cbv zeta. split; [|split].
  - intros d Hd. apply User_Add_written in Hd as [Hd|(s & p & Hs & Hp & ->)];
      [left; exact Hd|right].
    rewrite Hs. cbn [fst]. rewrite Hp. cbn. auto.
  - intros d Hd.
    apply User_Update_written in Hd
      as [Hd|(s & p & y & Hs & Hp & _ & _ & ->)]; [left; exact Hd|right].
    rewrite Hs. cbn [fst]. rewrite Hp. cbn. auto.
  - destruct (salt_source (saltCtr w)) as [s es] eqn:Hs. cbn [fst snd].
    destruct (security_HashPassword _ s) as [p ep] eqn:Hp. cbn [fst snd].
    intros Hls Hlp -> -> Hfresh. eexists. split.
    + eapply User_Add_fresh; eauto.
    + cbn. auto.
Qed.

(** C7.  Every call of [Update] draws a new salt.  Whenever salt and
    hash are produced, whatever the password supplied and whatever is
    stored, the call is the driver's update of the document selected
    by the identifier, with a [$set] of exactly the fields username,
    lastname, firstname, password, salt and email, the password being
    the new hash and the salt the new salt; the selected document
    keeps its identifier and takes these six values. *)
Theorem UserService_Update_rehashes
    (id : string) (user : User.t) (w : World) :
  saltCtr (snd (UserService_Update salt_source security_HashPassword
                  id user w)) = S (saltCtr w)
  /\ forall salt h oid,
      salt_source (saltCtr w) = (salt, None) -> (32 <= length salt)%nat ->
      security_HashPassword (list_byte_of_string (User.Password user)) salt
      = (h, None) -> (32 <= length h)%nat ->
      bson.ObjectIdHex id = Done oid ->
      exists fields : gmap string value,
        dom fields
        = ({[ "username"; "lastname"; "firstname"; "password"; "salt";
              "email" ]} : gset string)
        /\ fields !! "username" = Some (BString (User.Username user))
        /\ fields !! "lastname" = Some (BString (User.Lastname user))
        /\ fields !! "firstname" = Some (BString (User.Firstname user))
        /\ fields !! "password"
           = Some (BString (string_of_list_byte (take 32 h)))
        /\ fields !! "salt"
           = Some (BString (string_of_list_byte (take 32 salt)))
        /\ fields !! "email" = Some (BString (User.Email user))
        /\ UserService_Update salt_source security_HashPassword id user w
           = Update C_user {[ "_id" := BObjectId oid ]}
               {[ "$set" := fields ]} (with_saltCtr (S (saltCtr w)) w)
        /\ (forall pre d post,
              users w = (pre ++ d :: post)%list ->
              (forall x, In x pre -> User.ID x <> oid) ->
              User.ID d = oid ->
              UserService_Update salt_source security_HashPassword id user w
              = (Done None,
                 with_users
                   (pre ++ User.mk oid (User.Username user)
                             (string_of_list_byte (take 32 h))
                             (string_of_list_byte (take 32 salt))
                             (User.Email user) (User.Firstname user)
                             (User.Lastname user) :: post)%list
                   (with_saltCtr (S (saltCtr w)) w))).
Proof.
  split; [apply Update_saltCtr|].
  intros salt h oid Hs Hls Hh Hlh Hid.
  eexists. split; [apply user_set_fields|].
  do 6 (split; [reflexivity|]).
  assert (E : UserService_Update salt_source security_HashPassword id user w
              = Update C_user {[ "_id" := BObjectId oid ]}
                  {[ "$set" :=
                       {[ "username" := BString (User.Username user);
                          "lastname" := BString (User.Lastname user);
                          "firstname" := BString (User.Firstname user);
                          "password" :=
                            BString (string_of_list_byte (take 32 h));
                          "salt" :=
                            BString (string_of_list_byte (take 32 salt));
                          "email" := BString (User.Email user) ]} ]}
                  (with_saltCtr (S (saltCtr w)) w)).
  { rewrite Update_run, Hs. cbv zeta.
    rewrite (slice_to_take 32 salt Hls), Hh, (slice_to_take 32 h Hlh), Hid.
    reflexivity. }
  split; [exact E|].
  intros pre d post Hw Hpre Hd. rewrite E, Update_users.
  replace (users (with_saltCtr (S (saltCtr w)) w)) with (users w)
    by (destruct w; reflexivity).
  rewrite Hw, (coll_Update_hit (HD:=User_Document) _ oid _ pre d post Hpre Hd).
  cbn [fst snd]. rewrite user_set_applied, Hd. reflexivity.
Qed.

(** The document [ArticleService.Add] inserts, and the one
    [ArticleService.Update] leaves in place of [y]. *)
Local Abbreviation inserted id article :=
  (Article.mk id (Article.Titre article)
     (utils_SanitizeTitle (Article.Titre article))
     (Article.Texte article) (Article.Tags article)
     (Article.Image article) (Article.Vignette article)
     (Article.Status article) (Article.Create article)
     (Article.Create article)
     (mgo.mkDBRef "user" (mgo.Id (Article.UserRef article)) "")).

Local Abbreviation updated y article :=
  (Article.mk (Article.ID y) (Article.Titre article)
     (utils_SanitizeTitle (Article.Titre article))
     (Article.Texte article) (Article.Tags article)
     (Article.Image article) (Article.Vignette article)
     (Article.Status article) (Article.Create y)
     (Article.Modified article)
     (mgo.mkDBRef (mgo.Collection (Article.UserRef article))
        (mgo.Id (Article.UserRef article)) "")).

Lemma Article_Add_written (article : Article) (w : World) :
  forall d,
    In d (articles (snd (ArticleService_Add id_source utils_SanitizeTitle
                           article w))) ->
    In d (articles w) \/ d = inserted (id_source (idCtr w)) article.
Proof.
  intros d. rewrite Article_Add_run. cbv zeta. cbn [snd]. intros Hd.
  apply (coll_Insert_In (safe w)). destruct w; exact Hd.
Qed.

Lemma Article_Add_fresh (article : Article) (w : World) :
  (forall x, In x (articles w) -> Article.ID x <> id_source (idCtr w)) ->
  articles (snd (ArticleService_Add id_source utils_SanitizeTitle
                   article w))
  = (articles w ++ [inserted (id_source (idCtr w)) article])%list.
Proof.
  intros Hfresh. rewrite Article_Add_run. cbv zeta.
  rewrite (coll_Insert_fresh (HD:=Article_Document)) by exact Hfresh.
  destruct w; reflexivity.
Qed.

Lemma Article_Update_written (id : string) (article : Article) (w : World) :
  forall d,
    In d (articles (snd (ArticleService_Update utils_SanitizeTitle
                           id article w))) ->
    In d (articles w)
    \/ exists y, In y (articles w)
                 /\ bson.ObjectIdHex id = Done (Article.ID y)
                 /\ d = updated y article.
Proof.
  intros d. rewrite Article_Update_run.
  destruct (bson.ObjectIdHex id) as [oid|]; [|cbn; auto].
  rewrite Update_articles. cbn [snd]. intros Hd.
  assert (Hd' : In d (fst (coll_Update (safe w)
                 ({[ "_id" := BObjectId oid ]} : gmap string value)
                 {[ "$set" :=
                      {[ "titre" := BString (Article.Titre article);
                         "pretty" :=
                           BString (utils_SanitizeTitle
                                      (Article.Titre article));
                         "image" := BImage (Article.Image article);
                         "vignette" := BVignette (Article.Vignette article);
                         "texte" := BString (Article.Texte article);
                         "status" := BString (Article.Status article);
                         "modified" := BTime (Article.Modified article);
                         "tags" := BTags (Article.Tags article);
                         "userref" :=
                           BRef (mgo.mkDBRef
                                   (mgo.Collection (Article.UserRef article))
                                   (mgo.Id (Article.UserRef article)) "")
                      ]} ]} (articles w))))
    by (destruct w; exact Hd).
  apply coll_Update_In in Hd' as [Hd'|(y & Hy & Hm & ->)];
    [left; exact Hd'|].
  right. exists y. apply (matches_by_id oid y) in Hm. cbn in Hm. subst oid.
  rewrite article_set_applied. auto.
Qed.

Lemma Article_Update_hit (id : string) (article : Article) (w : World)
    (oid : bson.ObjectId) (pre : list Article) (y : Article)
    (post : list Article) :
  bson.ObjectIdHex id = Done oid ->
  articles w = (pre ++ y :: post)%list ->
  (forall x, In x pre -> Article.ID x <> oid) -> Article.ID y = oid ->
  ArticleService_Update utils_SanitizeTitle id article w
  = (Done None, with_articles (pre ++ updated y article :: post)%list w).
Proof.
  intros Hid Hw Hpre Hy. rewrite Article_Update_run, Hid, Update_articles.
  rewrite Hw, (coll_Update_hit (HD:=Article_Document) _ oid _ pre y post
                 Hpre Hy).
  cbn [fst snd]. rewrite article_set_applied. reflexivity.
Qed.

(** C6.  The slug that [Add] and [Update] write is
    [SanitizeTitle] of the title they write, whatever slug the
    argument carries: this holds of every document they leave in the
    collection that was not there before; [Add] with a fresh
    identifier appends such a document, and [Update] of a stored
    article replaces it by one with the new title and its slug. *)
Theorem slug_is_recomputed_from_title
    (id : string) (article : Article) (w : World) :
  let derived (d : Article) :=
    Article.Titre d = Article.Titre article
    /\ Article.Pretty d = utils_SanitizeTitle (Article.Titre article) in
  (forall d,
      In d (articles (snd (ArticleService_Add id_source utils_SanitizeTitle
                             article w))) ->
      In d (articles w) \/ derived d)
  /\ ((forall x, In x (articles w) -> Article.ID x <> id_source (idCtr w)) ->
      exists d,
        articles (snd (ArticleService_Add id_source utils_SanitizeTitle
                         article w))
        = (articles w ++ [d])%list /\ derived d)
  /\ (forall d,
        In d (articles (snd (ArticleService_Update utils_SanitizeTitle
                               id article w))) ->
        In d (articles w) \/ derived d)
  /\ (forall oid pre y post,
        bson.ObjectIdHex id = Done oid ->
        articles w = (pre ++ y :: post)%list ->
        (forall x, In x pre -> Article.ID x <> oid) ->
        Article.ID y = oid ->
        exists y',
          ArticleService_Update utils_SanitizeTitle id article w
          = (Done None, with_articles (pre ++ y' :: post)%list w)
          /\ Article.ID y' = oid /\ derived y').
Proof.
  cbv zeta. split; [|split; [|split]].
  - intros d Hd. apply Article_Add_written in Hd as [Hd| ->]; cbn; auto.
  - intros Hfresh. eexists. split; [apply Article_Add_fresh, Hfresh|].
    cbn. auto.
  - intros d Hd.
    apply Article_Update_written in Hd as [Hd|(y & _ & _ & ->)]; cbn; auto.
  - intros oid pre y post Hid Hw Hpre Hy. eexists. split.
    + eapply Article_Update_hit; eauto.
    + cbn. auto.
Qed.

(** C8.  The document [Add] inserts has its modified timestamp, like
    its creation timestamp, equal to the [Create] field of the
    argument; no clock is read. *)
Theorem ArticleService_Add_modified_is_create
    (article : Article) (w : World) :
  let stamped (d : Article) :=
    Article.Create d = Article.Create article
    /\ Article.Modified d = Article.Create article in
  (forall d,
      In d (articles (snd (ArticleService_Add id_source utils_SanitizeTitle
                             article w))) ->
      In d (articles w) \/ stamped d)
  /\ ((forall x, In x (articles w) -> Article.ID x <> id_source (idCtr w)) ->
      exists d,
        articles (snd (ArticleService_Add id_source utils_SanitizeTitle
                         article w))
        = (articles w ++ [d])%list /\ stamped d).
Proof.
  cbv zeta. split.
  - intros d Hd. apply Article_Add_written in Hd as [Hd| ->]; cbn; auto.
  - intros Hfresh. eexists. split; [apply Article_Add_fresh, Hfresh|].
    cbn. auto.
Qed.

(** C10.  The author reference [Add] inserts is the collection "user"
    with the identifier of the argument's reference, whatever
    collection the argument names; the one [Update] writes keeps the
    argument's collection name and identifier. *)
Theorem author_reference_collection
    (id : string) (article : Article) (w : World) :
  let by_Add (d : Article) :=
    mgo.Collection (Article.UserRef d) = "user"
    /\ mgo.Id (Article.UserRef d) = mgo.Id (Article.UserRef article) in
  let by_Update (d : Article) :=
    mgo.Collection (Article.UserRef d)
    = mgo.Collection (Article.UserRef article)
    /\ mgo.Id (Article.UserRef d) = mgo.Id (Article.UserRef article) in
  (forall d,
      In d (articles (snd (ArticleService_Add id_source utils_SanitizeTitle
                             article w))) ->
      In d (articles w) \/ by_Add d)
  /\ ((forall x, In x (articles w) -> Article.ID x <> id_source (idCtr w)) ->
      exists d,
        articles (snd (ArticleService_Add id_source utils_SanitizeTitle
                         article w))
        = (articles w ++ [d])%list /\ by_Add d)
  /\ (forall d,
        In d (articles (snd (ArticleService_Update utils_SanitizeTitle
                               id article w))) ->
        In d (articles w) \/ by_Update d)
  /\ (forall oid pre y post,
        bson.ObjectIdHex id = Done oid ->
        articles w = (pre ++ y :: post)%list ->
        (forall x, In x pre -> Article.ID x <> oid) ->
        Article.ID y = oid ->
        exists y',
          ArticleService_Update utils_SanitizeTitle id article w
          = (Done None, with_articles (pre ++ y' :: post)%list w)
          /\ Article.ID y' = oid /\ by_Update y').
Proof.
  cbv zeta. split; [|split; [|split]].
  - intros d Hd. apply Article_Add_written in Hd as [Hd| ->]; cbn; auto.
  - intros Hfresh. eexists. split; [apply Article_Add_fresh, Hfresh|].
    cbn. auto.
  - intros d Hd.
    apply Article_Update_written in Hd as [Hd|(y & _ & _ & ->)]; cbn; auto.
  - intros oid pre y post Hid Hw Hpre Hy. eexists. split.
    + eapply Article_Update_hit; eauto.
    + cbn. auto.
Qed.

(** C9.  After a successful [Add], [GetByID] on the hexadecimal form
    of the returned record's identifier returns that same record, for
    users and for articles (identifiers from [NewObjectId] have 12
    bytes). *)
Theorem Add_then_GetByID (w : World) :
  (forall n, String.length (id_source n) = 12%nat) ->
  (forall x u w',
      UserService_Add id_source salt_source security_HashPassword x w
      = (Done (u, None), w') ->
      UserService_GetByID (bson.Hex (User.ID u)) w' = (Done (u, None), w'))
  /\ (forall x a w',
        ArticleService_Add id_source utils_SanitizeTitle x w
        = (Done (a, None), w') ->
        ArticleService_GetByID (bson.Hex (Article.ID a)) w'
        = (Done (a, None), w')).
Proof.
  intros Hlen. split.
  - intros x u w' HAdd. rewrite Add_run in HAdd. cbv zeta in HAdd.
    destruct (salt_source (saltCtr w)) as [salt [e|]]; [discriminate|].
    destruct (slice_to 32 salt) as [salt32|]; [|discriminate].
    destruct (security_HashPassword _ salt) as [h [e|]]; [discriminate|].
    destruct (slice_to 32 h) as [h32|]; [|discriminate].
    destruct (coll_One _) as [u'|] eqn:Hone; [|discriminate].
    injection HAdd as -> <-.
    destruct (One_Find_Some _ _ _ Hone) as [_ Hm].
    apply (matches_by_id (id_source (idCtr w)) u) in Hm. cbn in Hm.
    rewrite GetByID_run, Hm, (ObjectIdHex_Hex _ (Hlen _)).
    replace (users (with_users _ _)) with
      (fst (insert_into (safe w)
              (User.mk (id_source (idCtr w)) (User.Username x)
                 (string_of_list_byte h32) (string_of_list_byte salt32)
                 (User.Email x) (User.Firstname x) (User.Lastname x))
              (users w))) by (destruct w; reflexivity).
    rewrite Hone. reflexivity.
  - intros x a w' HAdd. rewrite Article_Add_run in HAdd. cbv zeta in HAdd.
    destruct (coll_One _) as [a'|] eqn:Hone; [|discriminate].
    injection HAdd as -> <-.
    destruct (One_Find_Some _ _ _ Hone) as [_ Hm].
    apply (matches_by_id (id_source (idCtr w)) a) in Hm. cbn in Hm.
    rewrite Article_GetByID_run, Hm, (ObjectIdHex_Hex _ (Hlen _)).
    replace (articles (with_articles _ _)) with
      (fst (insert_into (safe w) (inserted (id_source (idCtr w)) x)
              (articles w))) by (destruct w; reflexivity).
    rewrite Hone. reflexivity.
Qed.

(** C5 (the code departs from the claim).  On a malformed identifier
    [ArticleService.GetByID] does not return the "No article" error:
    the panic of [ObjectIdHex] reaches the caller, whereas
    [UserService.GetByID] stops it and returns "Incorrect ID". *)
Theorem ArticleService_GetByID_malformed_id_panics (w : World) :
  ArticleService_GetByID "not-an-object-id" w
  = (Panicked "invalid input to ObjectIdHex: not-an-object-id", w)
  /\ UserService_GetByID "not-an-object-id" w
     = (Done (zero, Some (errors_New "Incorrect ID")), w).
Proof.
  assert (Hbad : ~ bson.valid_hex24 "not-an-object-id")
    by (intros [Hl _]; discriminate Hl).
  split.
  - apply ArticleService_GetByID_malformed, Hbad.
  - rewrite GetByID_run, (ObjectIdHex_panics _ Hbad). reflexivity.
Qed.

(** ** Further properties of the services *)

Lemma matches_nil_selector {D} {HD : @Document Tag Image Vignette RefId D}
    (d : D) :
  matches (∅ : gmap string value) d = true.
Proof. unfold matches. apply bool_decide_eq_true, map_Forall_empty. Qed.

Lemma filter_all {D} (p : D -> bool) (c : list D) :
  (forall d, p d = true) -> List.filter p c = c.
Proof.
  intros Hp. induction c as [|d c IH]; [reflexivity|].
  cbn. rewrite Hp, IH. reflexivity.
Qed.

Lemma matches_status (s : string) (a : Article) :
  matches ({[ "status" := BString s ]} : gmap string value) a = true
  <-> Article.Status a = s.
Proof.
  unfold matches. rewrite bool_decide_eq_true, map_Forall_singleton.
  cbn. split; [intros [= ->]; reflexivity|intros ->; reflexivity].
Qed.

Lemma matches_pretty (s : string) (a : Article) :
  matches ({[ "pretty" := BString s ]} : gmap string value) a = true
  <-> Article.Pretty a = s.
Proof.
  unfold matches. rewrite bool_decide_eq_true, map_Forall_singleton.
  cbn. split; [intros [= ->]; reflexivity|intros ->; reflexivity].
Qed.

Lemma remove_first_hit {D} (p : D -> bool)
    (pre : list D) (y : D) (post : list D) :
  (forall d, In d pre -> p d = false) -> p y = true ->
  remove_first p (pre ++ y :: post)%list = Some (pre ++ post)%list.
Proof.
  intros Hpre Hy. induction pre as [|d pre IH]; cbn.
  - rewrite Hy. reflexivity.
  - rewrite (Hpre d) by (left; reflexivity).
    rewrite IH; [reflexivity|]. intros x Hx. apply Hpre. right. exact Hx.
Qed.

Lemma remove_first_Some {D} (p : D -> bool) (c c' : list D) :
  remove_first p c = Some c' ->
  exists pre y post,
    c = (pre ++ y :: post)%list /\ c' = (pre ++ post)%list
    /\ p y = true /\ (forall d, In d pre -> p d = false).
Proof.
  revert c'. induction c as [|d c IH]; intros c' Hr; [discriminate|].
  cbn in Hr. destruct (p d) eqn:Hd.
  - inversion Hr; subst c'. exists [], d, c. cbn. intuition.
  - destruct (remove_first p c) as [r|]; [|discriminate].
    inversion Hr; subst c'.
    destruct (IH r eq_refl) as (pre & y & post & -> & -> & Hy & Hpre).
    exists (d :: pre), y, post. cbn. repeat split; auto.
    intros x [<-|Hx]; auto.
Qed.

Lemma update_first_Some {D} (p : D -> bool) (f : D -> D) (c c' : list D) :
  update_first p f c = Some c' ->
  exists pre y post,
    c = (pre ++ y :: post)%list /\ c' = (pre ++ f y :: post)%list
    /\ p y = true /\ (forall d, In d pre -> p d = false).
Proof.
  revert c'. induction c as [|d c IH]; intros c' Hr; [discriminate|].
  cbn in Hr. destruct (p d) eqn:Hd.
  - inversion Hr; subst c'. exists [], d, c. cbn. intuition.
  - destruct (update_first p f c) as [r|]; [|discriminate].
    inversion Hr; subst c'.
    destruct (IH r eq_refl) as (pre & y & post & -> & -> & Hy & Hpre).
    exists (d :: pre), y, post. cbn. repeat split; auto.
    intros x [<-|Hx]; auto.
Qed.

Lemma FindAll_run (w : World) :
  UserService_FindAll w
  = (Done (coll_Find (∅ : gmap string value) (users w), None), w).
Proof. destruct w as [us ars sf ss ic sc]. reflexivity. Qed.

Lemma Article_FindAll_run (w : World) :
  ArticleService_FindAll w
  = (Done (coll_Find (∅ : gmap string value) (articles w), None), w).
Proof. destruct w as [us ars sf ss ic sc]. reflexivity. Qed.

Lemma Article_FindByStatus_run (status : string) (w : World) :
  ArticleService_FindByStatus status w
  = (Done (coll_Find ({[ "status" := BString status ]} : gmap string value)
             (articles w), None), w).
Proof. destruct w as [us ars sf ss ic sc]. reflexivity. Qed.

Lemma Article_GetByPretty_run (pretty : string) (w : World) :
  ArticleService_GetByPretty pretty w
  = (Done match coll_One (coll_Find ({[ "pretty" := BString pretty ]}
                                     : gmap string value) (articles w)) with
          | None => (zero, Some (errors_New "No article"))
          | Some article => (article, None)
          end, w).
Proof.
  destruct w as [us ars sf ss ic sc]. run.
  destruct (coll_One _) as [a|]; reflexivity.
Qed.

(** X1.  [Get] authenticates against the first stored user that has the
    username: when [CheckPassword] accepts the password for that user's
    stored salt and hash, that user is returned with a nil error; when
    [CheckPassword] itself returns an error, that error is returned with
    the zero user, whatever validity it reports.  The world is left as
    it was. *)
Theorem UserService_Get_first_match
    (w : World) (username password : string)
    (pre : list User.t) (u : User.t) (post : list User.t) :
  users w = (pre ++ u :: post)%list ->
  (forall x, In x pre -> User.Username x <> username) ->
  User.Username u = username ->
  (security_CheckPassword (list_byte_of_string password)
     (list_byte_of_string (User.Salt u))
     (list_byte_of_string (User.Password u)) = (true, None) ->
   UserService_Get security_CheckPassword username password w
   = (Done (u, None), w))
  /\ (forall valid e,
        security_CheckPassword (list_byte_of_string password)
          (list_byte_of_string (User.Salt u))
          (list_byte_of_string (User.Password u)) = (valid, Some e) ->
        UserService_Get security_CheckPassword username password w
        = (Done (zero, Some e), w)).
Proof.
  intros Hw Hpre Hu.
  assert (Hone : coll_One (coll_Find ({[ "username" := BString username ]}
                                      : gmap string value) (users w))
                 = Some u).
  { rewrite Hw. unfold coll_Find. apply filter_first_hit.
    - intros d Hd. eapply matches_false_iff; [apply matches_username|].
      apply Hpre, Hd.
    - apply matches_username, Hu. }
  split.
  - intros Hchk. rewrite Get_run, Hone, Hchk. reflexivity.
  - intros valid e Hchk. rewrite Get_run, Hone, Hchk.
    destruct valid; reflexivity.
Qed.

(** X2.  [UserService.GetByID] reports "Incorrect ID" exactly for the
    identifiers that are not 24 hexadecimal characters. *)
Theorem UserService_GetByID_Incorrect_ID_iff (id : string) (w : World) :
  (exists u, UserService_GetByID id w
             = (Done (u, Some (errors_New "Incorrect ID")), w))
  <-> ~ bson.valid_hex24 id.
Proof.
  split.
  - intros [u Hu] Hv. apply ObjectIdHex_valid in Hv as [oid Hoid].
    rewrite GetByID_run, Hoid in Hu.
    destruct (coll_One _); discriminate Hu.
  - intros Hbad. exists zero.
    rewrite GetByID_run, (ObjectIdHex_panics id Hbad). reflexivity.
Qed.

(** X3.  For a well-formed identifier, [GetByID] of either service
    returns the first stored document with that identifier; when there
    is none, the user service returns the store's [ErrNotFound] and the
    article service replaces it by "No article".  The world is left as
    it was. *)
Theorem GetByID_lookup (id : string) (oid : bson.ObjectId) (w : World) :
  bson.ObjectIdHex id = Done oid ->
  ((forall x, In x (users w) -> User.ID x <> oid) ->
   UserService_GetByID id w = (Done (zero, Some mgo.ErrNotFound), w))
  /\ (forall pre u post,
        users w = (pre ++ u :: post)%list ->
        (forall x, In x pre -> User.ID x <> oid) -> User.ID u = oid ->
        UserService_GetByID id w = (Done (u, None), w))
  /\ ((forall x, In x (articles w) -> Article.ID x <> oid) ->
      ArticleService_GetByID id w
      = (Done (zero, Some (errors_New "No article")), w))
  /\ (forall pre a post,
        articles w = (pre ++ a :: post)%list ->
        (forall x, In x pre -> Article.ID x <> oid) -> Article.ID a = oid ->
        ArticleService_GetByID id w = (Done (a, None), w)).
Proof.
  intros Hid. repeat split.
  - intros Hno. rewrite GetByID_run, Hid. unfold coll_Find.
    rewrite filter_no_hit; [reflexivity|].
    intros d Hd. eapply matches_false_iff.
    + intros x. apply (matches_by_id oid x).
    + apply (Hno d Hd).
  - intros pre u post Hw Hpre Hu. rewrite GetByID_run, Hid, Hw.
    unfold coll_Find. rewrite filter_first_hit; [reflexivity| |].
    + intros d Hd. eapply matches_false_iff.
      * intros x. apply (matches_by_id oid x).
      * apply (Hpre d Hd).
    + apply (matches_by_id oid u), Hu.
  - intros Hno. rewrite Article_GetByID_run, Hid. unfold coll_Find.
    rewrite filter_no_hit; [reflexivity|].
    intros d Hd. eapply matches_false_iff.
    + intros x. apply (matches_by_id oid x).
    + apply (Hno d Hd).
  - intros pre a post Hw Hpre Ha. rewrite Article_GetByID_run, Hid, Hw.
    unfold coll_Find. rewrite filter_first_hit; [reflexivity| |].
    + intros d Hd. eapply matches_false_iff.
      * intros x. apply (matches_by_id oid x).
      * apply (Hpre d Hd).
    + apply (matches_by_id oid a), Ha.
Qed.

(** X4.  [FindAll] of either service returns the whole collection, in
    stored order, with a nil error, and leaves the world as it was. *)
Theorem FindAll_returns_the_collection (w : World) :
  UserService_FindAll w = (Done (users w, None), w)
  /\ ArticleService_FindAll w = (Done (articles w, None), w).
Proof.
  split.
  - rewrite FindAll_run. unfold coll_Find.
    rewrite filter_all; [reflexivity|]. intros d. apply matches_nil_selector.
  - rewrite Article_FindAll_run. unfold coll_Find.
    rewrite filter_all; [reflexivity|]. intros d. apply matches_nil_selector.
Qed.

(** X5.  [FindByStatus] returns, in stored order and with a nil error,
    exactly the stored articles whose status is the one asked for (none
    is an empty result, not an error), and leaves the world as it was. *)
Theorem ArticleService_FindByStatus_selects (status : string) (w : World) :
  exists l,
    ArticleService_FindByStatus status w = (Done (l, None), w)
    /\ l = List.filter (fun a => String.eqb (Article.Status a) status)
             (articles w)
    /\ (forall a, In a l <-> In a (articles w) /\ Article.Status a = status).
Proof.
  eexists. split; [apply Article_FindByStatus_run|].
  assert (E : coll_Find ({[ "status" := BString status ]}
                         : gmap string value) (articles w)
              = List.filter (fun a => String.eqb (Article.Status a) status)
                  (articles w)).
  { unfold coll_Find. apply List.filter_ext. intros a.
    destruct (String.eqb_spec (Article.Status a) status) as [He|Hne].
    - apply matches_status, He.
    - eapply matches_false_iff; [apply matches_status|exact Hne]. }
  split; [exact E|]. intros a. rewrite E, List.filter_In.
  rewrite String.eqb_eq. reflexivity.
Qed.

(** X6.  [GetByPretty] returns the first stored article with the given
    slug, and the zero article with the error "No article" when no
    stored article has it; the world is left as it was. *)
Theorem ArticleService_GetByPretty_lookup (pretty : string) (w : World) :
  ((forall x, In x (articles w) -> Article.Pretty x <> pretty) ->
   ArticleService_GetByPretty pretty w
   = (Done (zero, Some (errors_New "No article")), w))
  /\ (forall pre a post,
        articles w = (pre ++ a :: post)%list ->
        (forall x, In x pre -> Article.Pretty x <> pretty) ->
        Article.Pretty a = pretty ->
        ArticleService_GetByPretty pretty w = (Done (a, None), w)).
Proof.
  split.
  - intros Hno. rewrite Article_GetByPretty_run. unfold coll_Find.
    rewrite filter_no_hit; [reflexivity|].
    intros d Hd. eapply matches_false_iff; [apply matches_pretty|].
    apply (Hno d Hd).
  - intros pre a post Hw Hpre Ha. rewrite Article_GetByPretty_run, Hw.
    unfold coll_Find. rewrite filter_first_hit; [reflexivity| |].
    + intros d Hd. eapply matches_false_iff; [apply matches_pretty|].
      apply (Hpre d Hd).
    + apply matches_pretty, Ha.
Qed.

Lemma coll_Update_miss {D} {HD : @Document Tag Image Vignette RefId D}
    (s : bool) (oid : bson.ObjectId)
    (upd : gmap string (gmap string value)) (c : list D) :
  (forall x, In x c -> doc_id x <> oid) ->
  coll_Update s {[ "_id" := BObjectId oid ]} upd c
  = (c, if s then Some mgo.ErrNotFound else None).
Proof.
  intros Hno. unfold coll_Update.
  rewrite update_first_None; [reflexivity|].
  intros d Hd. eapply matches_false_iff.
  - intros x. apply (matches_by_id oid x).
  - apply Hno, Hd.
Qed.

Lemma coll_Insert_present {D} {HD : @Document Tag Image Vignette RefId D}
    (s : bool) (d e : D) (c : list D) :
  In e c -> doc_id e = doc_id d ->
  coll_Insert s d c = (c, if s then Some mgo.ErrDup else None).
Proof.
  intros He Hid. unfold coll_Insert.
  destruct (existsb _ c) eqn:E; [reflexivity|].
  assert (existsb (matches (by_id (doc_id d))) c = true); [|congruence].
  apply existsb_exists. exists e. split; [exact He|].
  apply matches_by_id, Hid.
Qed.

Lemma One_FindId_first {D} {HD : @Document Tag Image Vignette RefId D}
    (oid : bson.ObjectId) (pre : list D) (y : D) (post : list D) :
  (forall x, In x pre -> doc_id x <> oid) -> doc_id y = oid ->
  coll_One (coll_Find (by_id oid) (pre ++ y :: post)%list) = Some y.
Proof.
  intros Hpre Hy. unfold coll_Find. apply filter_first_hit.
  - intros d Hd. eapply matches_false_iff.
    + intros x. apply (matches_by_id oid x).
    + apply Hpre, Hd.
  - apply matches_by_id, Hy.
Qed.

Lemma One_FindId_none {D} {HD : @Document Tag Image Vignette RefId D}
    (oid : bson.ObjectId) (c : list D) :
  (forall x, In x c -> doc_id x <> oid) ->
  coll_One (coll_Find (by_id oid) c) = None.
Proof.
  intros Hno. unfold coll_Find. rewrite filter_no_hit; [reflexivity|].
  intros d Hd. eapply matches_false_iff.
  - intros x. apply (matches_by_id oid x).
  - apply Hno, Hd.
Qed.

(** X7.  [ArticleService.Update] does not stop the panic of
    [ObjectIdHex]: on a malformed identifier it panics, having changed
    nothing, where [UserService.Update] returns "Incorrect ID". *)
Theorem ArticleService_Update_malformed_id_panics
    (id : string) (article : Article) (w : World) :
  ~ bson.valid_hex24 id ->
  ArticleService_Update utils_SanitizeTitle id article w
  = (Panicked ("invalid input to ObjectIdHex: " ++ id), w).
Proof.
  intros Hbad. rewrite Article_Update_run, (ObjectIdHex_panics id Hbad).
  reflexivity.
Qed.

(** X8.  [Update] with a well-formed identifier that no stored document
    has changes no document and returns what the driver reports:
    [ErrNotFound] in a safe-mode session, nil otherwise.  For users this
    is after a salt has been drawn and the password hashed. *)
Theorem Update_without_match (id : string) (oid : bson.ObjectId) (w : World) :
  bson.ObjectIdHex id = Done oid ->
  (forall article : Article,
      (forall x, In x (articles w) -> Article.ID x <> oid) ->
      ArticleService_Update utils_SanitizeTitle id article w
      = (Done (if safe w then Some mgo.ErrNotFound else None), w))
  /\ (forall (user : User.t) salt h,
        salt_source (saltCtr w) = (salt, None) -> (32 <= length salt)%nat ->
        security_HashPassword (list_byte_of_string (User.Password user)) salt
        = (h, None) -> (32 <= length h)%nat ->
        (forall x, In x (users w) -> User.ID x <> oid) ->
        UserService_Update salt_source security_HashPassword id user w
        = (Done (if safe w then Some mgo.ErrNotFound else None),
           with_saltCtr (S (saltCtr w)) w)).
Proof.
  intros Hid. split.
  - intros article Hno. rewrite Article_Update_run, Hid, Update_articles.
    rewrite (coll_Update_miss (HD:=Article_Document) _ oid _ _ Hno).
    destruct w; reflexivity.
  - intros user salt h Hs Hls Hh Hlh Hno. rewrite Update_run, Hs. cbv zeta.
    rewrite (slice_to_take 32 salt Hls), Hh, (slice_to_take 32 h Hlh), Hid.
    rewrite Update_users.
    replace (users (with_saltCtr (S (saltCtr w)) w)) with (users w)
      by (destruct w; reflexivity).
    rewrite (coll_Update_miss (HD:=User_Document) _ oid _ _ Hno).
    destruct w; reflexivity.
Qed.

(** X9.  [Delete] removes the first stored document that has both the
    identifier and the secondary field (username, title) of its
    argument, keeps every other document in place, and returns nil. *)
Theorem Delete_removes_first_match (w : World) :
  (forall (user : User.t) pre d post,
      users w = (pre ++ d :: post)%list ->
      (forall x, In x pre ->
         ~ (User.ID x = User.ID user
            /\ User.Username x = User.Username user)) ->
      User.ID d = User.ID user -> User.Username d = User.Username user ->
      UserService_Delete user w
      = (Done None, with_users (pre ++ post)%list w))
  /\ (forall (article : Article) pre d post,
        articles w = (pre ++ d :: post)%list ->
        (forall x, In x pre ->
           ~ (Article.ID x = Article.ID article
              /\ Article.Titre x = Article.Titre article)) ->
        Article.ID d = Article.ID article ->
        Article.Titre d = Article.Titre article ->
        ArticleService_Delete article w
        = (Done None, with_articles (pre ++ post)%list w)).
Proof.
  split.
  - intros user pre d post Hw Hpre Hid Hn.
    rewrite User_Delete_run, Hw. unfold coll_Remove.
    rewrite remove_first_hit; [reflexivity| |].
    + intros x Hx. eapply matches_false_iff; [apply matches_user_delete|].
      apply Hpre, Hx.
    + apply matches_user_delete. auto.
  - intros article pre d post Hw Hpre Hid Hn.
    rewrite Article_Delete_run, Hw. unfold coll_Remove.
    rewrite remove_first_hit; [reflexivity| |].
    + intros x Hx. eapply matches_false_iff; [apply matches_article_delete|].
      apply Hpre, Hx.
    + apply matches_article_delete. auto.
Qed.


(** X11.  With an identifier no stored document has, [Add] appends the
    document it builds and returns that document, as stored: for a
    user, with the truncated salt and hash in place of what the caller
    passed (given a salt and a hash of at least 32 bytes); for an
    article, with the derived slug, the "user" reference collection and
    the modified timestamp of the creation. *)
Theorem Add_returns_the_stored_document (w : World) :
  (forall (user : User.t) salt h,
      salt_source (saltCtr w) = (salt, None) -> (32 <= length salt)%nat ->
      security_HashPassword (list_byte_of_string (User.Password user)) salt
      = (h, None) -> (32 <= length h)%nat ->
      (forall x, In x (users w) -> User.ID x <> id_source (idCtr w)) ->
      let d := User.mk (id_source (idCtr w)) (User.Username user)
                 (string_of_list_byte (take 32 h))
                 (string_of_list_byte (take 32 salt))
                 (User.Email user) (User.Firstname user)
                 (User.Lastname user) in
      UserService_Add id_source salt_source security_HashPassword user w
      = (Done (d, None),
         with_users (users w ++ [d])%list
           (with_saltCtr (S (saltCtr w)) (with_idCtr (S (idCtr w)) w))))
  /\ (forall article : Article,
        (forall x, In x (articles w) -> Article.ID x <> id_source (idCtr w)) ->
        let d := inserted (id_source (idCtr w)) article in
        ArticleService_Add id_source utils_SanitizeTitle article w
        = (Done (d, None),
           with_articles (articles w ++ [d])%list
             (with_idCtr (S (idCtr w)) w))).
Proof.
  split.
  - intros user salt h Hs Hls Hh Hlh Hfresh d.
    rewrite Add_run, Hs. cbv zeta.
    rewrite (slice_to_take 32 salt Hls), Hh, (slice_to_take 32 h Hlh).
    rewrite (coll_Insert_fresh (D:=User.t)) by exact Hfresh. cbn [fst].
    rewrite (One_FindId_first (HD:=User_Document) _ (users w) d [])
      by (exact Hfresh || reflexivity).
    reflexivity.
  - intros article Hfresh d. rewrite Article_Add_run. cbv zeta.
    rewrite (coll_Insert_fresh (HD:=Article_Document)) by exact Hfresh.
    cbn [fst].
    rewrite (One_FindId_first (HD:=Article_Document) _ (articles w) d [])
      by (exact Hfresh || reflexivity).
    reflexivity.
Qed.

(** X12.  After [Add] of a user whose username and generated identifier
    are new to the store, [Get] with the same username and password
    returns the stored user, provided [CheckPassword] accepts the
    password against the first 32 bytes of the salt and of the hash,
    which is all that [Add] stores of them. *)
Theorem Add_then_Get (user : User.t) (w : World) (salt h : list byte) :
  salt_source (saltCtr w) = (salt, None) -> (32 <= length salt)%nat ->
  security_HashPassword (list_byte_of_string (User.Password user)) salt
  = (h, None) -> (32 <= length h)%nat ->
  (forall x, In x (users w) -> User.ID x <> id_source (idCtr w)) ->
  (forall x, In x (users w) -> User.Username x <> User.Username user) ->
  security_CheckPassword (list_byte_of_string (User.Password user))
    (take 32 salt) (take 32 h) = (true, None) ->
  exists d w',
    UserService_Add id_source salt_source security_HashPassword user w
    = (Done (d, None), w')
    /\ UserService_Get security_CheckPassword (User.Username user)
         (User.Password user) w' = (Done (d, None), w').
Proof.
  intros Hs Hls Hh Hlh Hfresh Hname Hchk.
  eexists _, _. split.
  - rewrite Add_run, Hs. cbv zeta.
    rewrite (slice_to_take 32 salt Hls), Hh, (slice_to_take 32 h Hlh).
    rewrite (coll_Insert_fresh (D:=User.t)) by exact Hfresh. cbn [fst].
    rewrite (One_FindId_first (HD:=User_Document) _ (users w) _ [])
      by (exact Hfresh || reflexivity).
    reflexivity.
  - rewrite Get_run.
    replace (users (with_users _ _)) with
      (users w ++ [User.mk (id_source (idCtr w)) (User.Username user)
                     (string_of_list_byte (take 32 h))
                     (string_of_list_byte (take 32 salt))
                     (User.Email user) (User.Firstname user)
                     (User.Lastname user)])%list
      by (destruct w; reflexivity).
    unfold coll_Find. rewrite filter_first_hit.
    + cbn [User.Salt User.Password].
      rewrite !list_byte_of_string_of_list_byte, Hchk. reflexivity.
    + intros x Hx. eapply matches_false_iff; [apply matches_username|].
      apply Hname, Hx.
    + apply matches_username. reflexivity.
Qed.

(** X13.  [Add] ignores the result of the insert: when a stored document
    already has the generated identifier, nothing is written and [Add]
    returns that earlier document with a nil error. *)
Theorem Add_with_identifier_in_use (w : World) :
  (forall (user : User.t) salt h pre e post,
      salt_source (saltCtr w) = (salt, None) -> (32 <= length salt)%nat ->
      security_HashPassword (list_byte_of_string (User.Password user)) salt
      = (h, None) -> (32 <= length h)%nat ->
      users w = (pre ++ e :: post)%list ->
      (forall x, In x pre -> User.ID x <> id_source (idCtr w)) ->
      User.ID e = id_source (idCtr w) ->
      UserService_Add id_source salt_source security_HashPassword user w
      = (Done (e, None),
         with_saltCtr (S (saltCtr w)) (with_idCtr (S (idCtr w)) w)))
  /\ (forall (article : Article) pre e post,
        articles w = (pre ++ e :: post)%list ->
        (forall x, In x pre -> Article.ID x <> id_source (idCtr w)) ->
        Article.ID e = id_source (idCtr w) ->
        ArticleService_Add id_source utils_SanitizeTitle article w
        = (Done (e, None), with_idCtr (S (idCtr w)) w)).
Proof.
  split.
  - intros user salt h pre e post Hs Hls Hh Hlh Hw Hpre He.
    rewrite Add_run, Hs. cbv zeta.
    rewrite (slice_to_take 32 salt Hls), Hh, (slice_to_take 32 h Hlh).
    rewrite (coll_Insert_present (HD:=User_Document) _ _ e);
      [|rewrite Hw; apply in_elt|exact He].
    cbn [fst]. rewrite Hw at 1.
    rewrite (One_FindId_first (HD:=User_Document) _ pre e post Hpre He).
    destruct w; reflexivity.
  - intros article pre e post Hw Hpre He.
    rewrite Article_Add_run. cbv zeta.
    rewrite (coll_Insert_present (HD:=Article_Document) _ _ e);
      [|rewrite Hw; apply in_elt|exact He].
    cbn [fst]. rewrite Hw at 1.
    rewrite (One_FindId_first (HD:=Article_Document) _ pre e post Hpre He).
    destruct w; reflexivity.
Qed.

(** X14.  When salt generation fails, [Add] returns the zero user with
    its own error "Error when generatiing Salt" in place of the cause,
    whereas [Update] returns the cause; when hashing fails, both return
    the error of [HashPassword].  In all four cases the stored users
    are left as they were. *)
Theorem credential_failures (id : string) (user : User.t) (w : World) :
  let w1 := with_saltCtr (S (saltCtr w)) w in
  (forall salt e,
      salt_source (saltCtr w) = (salt, Some e) ->
      UserService_Add id_source salt_source security_HashPassword user w
      = (Done (zero, Some (errors_New "Error when generatiing Salt")),
         with_idCtr (S (idCtr w)) w1)
      /\ UserService_Update salt_source security_HashPassword id user w
         = (Done (Some e), w1))
  /\ (forall salt h e,
        salt_source (saltCtr w) = (salt, None) -> (32 <= length salt)%nat ->
        security_HashPassword (list_byte_of_string (User.Password user)) salt
        = (h, Some e) ->
        UserService_Add id_source salt_source security_HashPassword user w
        = (Done (zero, Some e), with_idCtr (S (idCtr w)) w1)
        /\ UserService_Update salt_source security_HashPassword id user w
           = (Done (Some e), w1))
  /\ users (with_idCtr (S (idCtr w)) w1) = users w
  /\ users w1 = users w.
Proof.
  cbv zeta. split; [|split; [|split]].
  - intros salt e Hs. rewrite Add_run, Update_run, Hs.
    destruct w; split; reflexivity.
  - intros salt h e Hs Hls Hh. rewrite Add_run, Update_run, Hs. cbv zeta.
    rewrite (slice_to_take 32 salt Hls), Hh. destruct w; split; reflexivity.
  - destruct w; reflexivity.
  - destruct w; reflexivity.
Qed.

(** X15.  A salt or hash shorter than 32 bytes (capacity included) makes
    the slice expression panic: [Add] lets the panic through, and
    [Update] reports it as "Incorrect ID", whatever the identifier.
    Neither writes anything. *)
Theorem short_salt_or_hash (id : string) (user : User.t) (w : World)
    (salt : list byte) :
  salt_source (saltCtr w) = (salt, None) ->
  ((length salt < 32)%nat
   \/ (exists h,
         security_HashPassword (list_byte_of_string (User.Password user)) salt
         = (h, None) /\ (length h < 32)%nat)) ->
  UserService_Add id_source salt_source security_HashPassword user w
  = (Panicked "slice bounds out of range",
     with_saltCtr (S (saltCtr w)) (with_idCtr (S (idCtr w)) w))
  /\ UserService_Update salt_source security_HashPassword id user w
     = (Done (Some (errors_New "Incorrect ID")),
        with_saltCtr (S (saltCtr w)) w).
Proof.
  intros Hs Hshort. rewrite Add_run, Update_run, Hs. cbv zeta.
  unfold slice_to at 1 3.
  destruct (Nat.leb_spec 32 (length salt)) as [Hls|Hls].
  - destruct Hshort as [Hlt|(h & Hh & Hlt)]; [lia|].
    rewrite Hh. unfold slice_to.
    destruct (Nat.leb_spec 32 (length h)); [lia|].
    destruct w; split; reflexivity.
  - destruct w; split; reflexivity.
Qed.

Lemma update_first_map {D B} (g : D -> B) (p : D -> bool) (f : D -> D)
    (c c' : list D) :
  (forall d, g (f d) = g d) -> update_first p f c = Some c' ->
  map g c' = map g c.
Proof.
  intros Hg Hu. apply update_first_Some in Hu
    as (pre & y & post & -> & -> & _ & _).
  rewrite !map_app. cbn. rewrite Hg. reflexivity.
Qed.

Lemma coll_Update_map {D B} {HD : @Document Tag Image Vignette RefId D}
    (g : D -> B) (s : bool) (sel : gmap string value)
    (upd : gmap string (gmap string value)) (c : list D) :
  (forall d, g (apply_update upd d) = g d) ->
  map g (fst (coll_Update s sel upd c)) = map g c.
Proof.
  intros Hg. unfold coll_Update.
  destruct (update_first _ _ c) as [c'|] eqn:E; [|reflexivity].
  cbn [fst]. eapply update_first_map; eauto.
Qed.

Lemma apply_update_id {D} {HD : @Document Tag Image Vignette RefId D}
    (upd : gmap string (gmap string value)) (d : D) :
  doc_id (apply_update upd d) = doc_id d.
Proof.
  unfold apply_update. destruct (upd !! "$set"); [apply doc_set_id|reflexivity].
Qed.

Lemma coll_Insert_shape {D} {HD : @Document Tag Image Vignette RefId D}
    (s : bool) (d : D) (c : list D) :
  fst (coll_Insert s d c) = c
  \/ (fst (coll_Insert s d c) = (c ++ [d])%list
      /\ forall x, In x c -> doc_id x <> doc_id d).
Proof.
  unfold coll_Insert. destruct (existsb _ c) eqn:E; [left; reflexivity|].
  right. split; [reflexivity|]. intros x Hx Hid.
  assert (existsb (matches (by_id (doc_id d))) c = true); [|congruence].
  apply existsb_exists. exists x. split; [exact Hx|].
  apply matches_by_id, Hid.
Qed.

Lemma NoDup_map_snoc {D B} (g : D -> B) (c : list D) (d : D) :
  NoDup (map g c) -> (forall x, In x c -> g x <> g d) ->
  NoDup (map g (c ++ [d])%list).
Proof.
  intros Hnd Hfresh. rewrite map_app. cbn.
  apply NoDup_app. split; [exact Hnd|]. split.
  - intros b Hb Hb'. apply list_elem_of_In in Hb, Hb'.
    destruct Hb' as [<-|[]]. apply in_map_iff in Hb as (x & Hx & Hin).
    apply (Hfresh x Hin Hx).
  - apply NoDup_singleton.
Qed.

Lemma NoDup_map_remove {D B} (g : D -> B) (pre : list D) (d : D)
    (post : list D) :
  NoDup (map g (pre ++ d :: post)%list) -> NoDup (map g (pre ++ post)%list).
Proof.
  rewrite !map_app. cbn. rewrite !NoDup_app, NoDup_cons.
  intros (Hpre & Hdisj & _ & Hpost). split; [exact Hpre|]. split; [|exact Hpost].
  intros b Hb Hb'. apply (Hdisj b Hb). right. exact Hb'.
Qed.

(** What [UserService.Add] can do to the user collection. *)
Lemma User_Add_users (user : User.t) (w : World) :
  users (snd (UserService_Add id_source salt_source security_HashPassword
                user w)) = users w
  \/ exists d,
       User.ID d = id_source (idCtr w)
       /\ users (snd (UserService_Add id_source salt_source
                        security_HashPassword user w))
          = fst (insert_into (safe w) d (users w)).
Proof.
  rewrite Add_run. cbv zeta.
  destruct (salt_source (saltCtr w)) as [salt [e|]];
    [left; destruct w; reflexivity|].
  destruct (slice_to 32 salt) as [salt32|]; [|left; destruct w; reflexivity].
  destruct (security_HashPassword _ salt) as [h [e|]];
    [left; destruct w; reflexivity|].
  destruct (slice_to 32 h) as [h32|]; [|left; destruct w; reflexivity].
  right. eexists. split; [|destruct w; reflexivity]. reflexivity.
Qed.

Lemma Article_Add_articles (article : Article) (w : World) :
  articles (snd (ArticleService_Add id_source utils_SanitizeTitle article w))
  = fst (insert_into (safe w) (inserted (id_source (idCtr w)) article)
           (articles w)).
Proof. rewrite Article_Add_run. destruct w; reflexivity. Qed.

(** What [UserService.Update] can do to the user collection. *)
Lemma User_Update_users (id : string) (user : User.t) (w : World) :
  users (snd (UserService_Update salt_source security_HashPassword
                id user w)) = users w
  \/ exists (sel : gmap string value) upd,
       users (snd (UserService_Update salt_source security_HashPassword
                     id user w))
       = fst (coll_Update (safe w) sel upd (users w)).
Proof.
  rewrite Update_run. cbv zeta.
  destruct (salt_source (saltCtr w)) as [salt [e|]];
    [left; destruct w; reflexivity|].
  destruct (slice_to 32 salt) as [salt32|]; [|left; destruct w; reflexivity].
  destruct (security_HashPassword _ salt) as [h [e|]];
    [left; destruct w; reflexivity|].
  destruct (slice_to 32 h) as [h32|]; [|left; destruct w; reflexivity].
  destruct (bson.ObjectIdHex id) as [oid|]; [|left; destruct w; reflexivity].
  right. rewrite Update_users. eexists _, _. destruct w; reflexivity.
Qed.

(** X16.  Every operation of the two services closes the session copy
    it opened, on every path, panics included: the number of open
    sessions is the same after as before. *)
Theorem sessions_are_released (w : World) :
  (forall username password,
      sessions (snd (UserService_Get security_CheckPassword username
                       password w)) = sessions w)
  /\ (forall id, sessions (snd (UserService_GetByID id w)) = sessions w)
  /\ sessions (snd (UserService_FindAll w)) = sessions w
  /\ (forall user,
        sessions (snd (UserService_Add id_source salt_source
                         security_HashPassword user w)) = sessions w)
  /\ (forall user, sessions (snd (UserService_Delete user w)) = sessions w)
  /\ (forall id user,
        sessions (snd (UserService_Update salt_source security_HashPassword
                         id user w)) = sessions w)
  /\ (forall id, sessions (snd (ArticleService_GetByID id w)) = sessions w)
  /\ (forall pretty,
        sessions (snd (ArticleService_GetByPretty pretty w)) = sessions w)
  /\ (forall status,
        sessions (snd (ArticleService_FindByStatus status w)) = sessions w)
  /\ (forall article,
        sessions (snd (ArticleService_Add id_source utils_SanitizeTitle
                         article w)) = sessions w)
  /\ sessions (snd (ArticleService_FindAll w)) = sessions w
  /\ (forall article,
        sessions (snd (ArticleService_Delete article w)) = sessions w)
  /\ (forall id article,
        sessions (snd (ArticleService_Update utils_SanitizeTitle id
                         article w)) = sessions w).
Proof.
  repeat match goal with |- _ /\ _ => split end; intros;
    repeat match goal with x := _ |- _ => subst x end;
    repeat match goal with |- _ /\ _ => split end.
  - rewrite Get_run. reflexivity.
  - rewrite GetByID_run. destruct (bson.ObjectIdHex id); reflexivity.
  - rewrite FindAll_run. reflexivity.
  - rewrite Add_run. cbv zeta.
    destruct (salt_source (saltCtr w)) as [salt [e|]];
      [destruct w; reflexivity|].
    destruct (slice_to 32 salt); [|destruct w; reflexivity].
    destruct (security_HashPassword _ salt) as [h [e|]];
      [destruct w; reflexivity|].
    destruct (slice_to 32 h); destruct w; reflexivity.
  - rewrite User_Delete_run. destruct w; reflexivity.
  - rewrite Update_run. cbv zeta.
    destruct (salt_source (saltCtr w)) as [salt [e|]];
      [destruct w; reflexivity|].
    destruct (slice_to 32 salt); [|destruct w; reflexivity].
    destruct (security_HashPassword _ salt) as [h [e|]];
      [destruct w; reflexivity|].
    destruct (slice_to 32 h); [|destruct w; reflexivity].
    destruct (bson.ObjectIdHex id); [|destruct w; reflexivity].
    rewrite Update_users. destruct w; reflexivity.
  - rewrite Article_GetByID_run. destruct (bson.ObjectIdHex id); reflexivity.
  - rewrite Article_GetByPretty_run. reflexivity.
  - rewrite Article_FindByStatus_run. reflexivity.
  - rewrite Article_Add_run. destruct w; reflexivity.
  - rewrite Article_FindAll_run. reflexivity.
  - rewrite Article_Delete_run. destruct w; reflexivity.
  - rewrite Article_Update_run.
    destruct (bson.ObjectIdHex id); [|reflexivity].
    rewrite Update_articles. destruct w; reflexivity.
Qed.

(** X17.  The seven query operations change nothing: whether they
    succeed, fail or panic, the world after is the world before. *)
Theorem queries_change_nothing (w : World) :
  (forall username password,
      snd (UserService_Get security_CheckPassword username password w) = w)
  /\ (forall id, snd (UserService_GetByID id w) = w)
  /\ snd (UserService_FindAll w) = w
  /\ (forall id, snd (ArticleService_GetByID id w) = w)
  /\ (forall pretty, snd (ArticleService_GetByPretty pretty w) = w)
  /\ (forall status, snd (ArticleService_FindByStatus status w) = w)
  /\ snd (ArticleService_FindAll w) = w.
Proof.
  repeat match goal with |- _ /\ _ => split end; intros;
    repeat match goal with x := _ |- _ => subst x end;
    repeat match goal with |- _ /\ _ => split end.
  - rewrite Get_run. reflexivity.
  - rewrite GetByID_run. destruct (bson.ObjectIdHex id); reflexivity.
  - rewrite FindAll_run. reflexivity.
  - rewrite Article_GetByID_run. destruct (bson.ObjectIdHex id); reflexivity.
  - rewrite Article_GetByPretty_run. reflexivity.
  - rewrite Article_FindByStatus_run. reflexivity.
  - rewrite Article_FindAll_run. reflexivity.
Qed.

(** X18.  The two services keep to their own collection: no operation of
    the user service changes the articles, and no operation of the
    article service changes the users or draws a salt. *)
Theorem services_keep_to_their_collection (w : World) :
  (forall user,
      articles (snd (UserService_Add id_source salt_source
                       security_HashPassword user w)) = articles w)
  /\ (forall user, articles (snd (UserService_Delete user w)) = articles w)
  /\ (forall id user,
        articles (snd (UserService_Update salt_source security_HashPassword
                         id user w)) = articles w)
  /\ (forall article,
        let w' := snd (ArticleService_Add id_source utils_SanitizeTitle
                         article w) in
        users w' = users w /\ saltCtr w' = saltCtr w)
  /\ (forall article,
        let w' := snd (ArticleService_Delete article w) in
        users w' = users w /\ saltCtr w' = saltCtr w)
  /\ (forall id article,
        let w' := snd (ArticleService_Update utils_SanitizeTitle id
                         article w) in
        users w' = users w /\ saltCtr w' = saltCtr w).
Proof.
  repeat match goal with |- _ /\ _ => split end; intros;
    repeat match goal with x := _ |- _ => subst x end;
    repeat match goal with |- _ /\ _ => split end.
  - rewrite Add_run. cbv zeta.
    destruct (salt_source (saltCtr w)) as [salt [e|]];
      [destruct w; reflexivity|].
    destruct (slice_to 32 salt); [|destruct w; reflexivity].
    destruct (security_HashPassword _ salt) as [h [e|]];
      [destruct w; reflexivity|].
    destruct (slice_to 32 h); destruct w; reflexivity.
  - rewrite User_Delete_run. destruct w; reflexivity.
  - rewrite Update_run. cbv zeta.
    destruct (salt_source (saltCtr w)) as [salt [e|]];
      [destruct w; reflexivity|].
    destruct (slice_to 32 salt); [|destruct w; reflexivity].
    destruct (security_HashPassword _ salt) as [h [e|]];
      [destruct w; reflexivity|].
    destruct (slice_to 32 h); [|destruct w; reflexivity].
    destruct (bson.ObjectIdHex id); [|destruct w; reflexivity].
    rewrite Update_users. destruct w; reflexivity.
  - rewrite Article_Add_run. destruct w; reflexivity.
  - rewrite Article_Add_run. destruct w; reflexivity.
  - rewrite Article_Delete_run. destruct w; reflexivity.
  - rewrite Article_Delete_run. destruct w; reflexivity.
  - rewrite Article_Update_run.
    destruct (bson.ObjectIdHex id); [|reflexivity].
    rewrite Update_articles. destruct w; reflexivity.
  - rewrite Article_Update_run.
    destruct (bson.ObjectIdHex id); [|reflexivity].
    rewrite Update_articles. destruct w; reflexivity.
Qed.

Lemma User_Update_hit (id : string) (user : User.t) (w : World)
    (salt h : list byte) (oid : bson.ObjectId)
    (pre : list User.t) (d : User.t) (post : list User.t) :
  salt_source (saltCtr w) = (salt, None) -> (32 <= length salt)%nat ->
  security_HashPassword (list_byte_of_string (User.Password user)) salt
  = (h, None) -> (32 <= length h)%nat ->
  bson.ObjectIdHex id = Done oid ->
  users w = (pre ++ d :: post)%list ->
  (forall x, In x pre -> User.ID x <> oid) -> User.ID d = oid ->
  UserService_Update salt_source security_HashPassword id user w
  = (Done None,
     with_users
       (pre ++ User.mk oid (User.Username user)
                 (string_of_list_byte (take 32 h))
                 (string_of_list_byte (take 32 salt))
                 (User.Email user) (User.Firstname user)
                 (User.Lastname user) :: post)%list
       (with_saltCtr (S (saltCtr w)) w)).
Proof.
  intros Hs Hls Hh Hlh Hid Hw Hpre Hd. rewrite Update_run, Hs. cbv zeta.
  rewrite (slice_to_take 32 salt Hls), Hh, (slice_to_take 32 h Hlh), Hid.
  rewrite Update_users.
  replace (users (with_saltCtr (S (saltCtr w)) w)) with (users w)
    by (destruct w; reflexivity).
  rewrite Hw, (coll_Update_hit (HD:=User_Document) _ oid _ pre d post Hpre Hd).
  cbn [fst snd]. rewrite user_set_applied, Hd. reflexivity.
Qed.

(** X19.  After an [Update] that found its document, [GetByID] with the
    same identifier returns the updated document: the user with the six
    new values, the article with the new values and slug and with the
    identifier and creation timestamp it had. *)
Theorem Update_then_GetByID (id : string) (oid : bson.ObjectId) (w : World) :
  bson.ObjectIdHex id = Done oid ->
  (forall (user : User.t) salt h pre d post,
      salt_source (saltCtr w) = (salt, None) -> (32 <= length salt)%nat ->
      security_HashPassword (list_byte_of_string (User.Password user)) salt
      = (h, None) -> (32 <= length h)%nat ->
      users w = (pre ++ d :: post)%list ->
      (forall x, In x pre -> User.ID x <> oid) -> User.ID d = oid ->
      let w' := snd (UserService_Update salt_source security_HashPassword
                       id user w) in
      UserService_GetByID id w'
      = (Done (User.mk oid (User.Username user)
                 (string_of_list_byte (take 32 h))
                 (string_of_list_byte (take 32 salt))
                 (User.Email user) (User.Firstname user)
                 (User.Lastname user), None), w'))
  /\ (forall (article : Article) pre y post,
        articles w = (pre ++ y :: post)%list ->
        (forall x, In x pre -> Article.ID x <> oid) -> Article.ID y = oid ->
        let w' := snd (ArticleService_Update utils_SanitizeTitle id
                         article w) in
        ArticleService_GetByID id w' = (Done (updated y article, None), w')).
Proof.
  intros Hid. split.
  - intros user salt h pre d post Hs Hls Hh Hlh Hw Hpre Hd w'. subst w'.
    rewrite (User_Update_hit id user w salt h oid pre d post) by assumption.
    cbn [snd]. rewrite GetByID_run, Hid.
    replace (users (with_users _ _)) with
      (pre ++ User.mk oid (User.Username user)
                (string_of_list_byte (take 32 h))
                (string_of_list_byte (take 32 salt))
                (User.Email user) (User.Firstname user)
                (User.Lastname user) :: post)%list
      by (destruct w; reflexivity).
    rewrite (One_FindId_first (HD:=User_Document) oid pre
               (User.mk oid (User.Username user)
                  (string_of_list_byte (take 32 h))
                  (string_of_list_byte (take 32 salt))
                  (User.Email user) (User.Firstname user)
                  (User.Lastname user)) post Hpre eq_refl).
    reflexivity.
  - intros article pre y post Hw Hpre Hy w'. subst w'.
    rewrite (Article_Update_hit id article w oid pre y post) by assumption.
    cbn [snd]. rewrite Article_GetByID_run, Hid.
    replace (articles (with_articles _ _)) with
      (pre ++ updated y article :: post)%list by (destruct w; reflexivity).
    rewrite (One_FindId_first (HD:=Article_Document) oid pre
               (updated y article) post Hpre Hy).
    reflexivity.
Qed.

(** X20.  [Update] never adds, removes or reorders documents and never
    changes an identifier; for articles it never changes a creation
    timestamp either.  This holds on every path, failures and panics
    included. *)
Theorem Update_keeps_identifiers
    (id : string) (user : User.t) (article : Article) (w : World) :
  map User.ID (users (snd (UserService_Update salt_source
                             security_HashPassword id user w)))
  = map User.ID (users w)
  /\ map (fun a => (Article.ID a, Article.Create a))
       (articles (snd (ArticleService_Update utils_SanitizeTitle id
                         article w)))
     = map (fun a => (Article.ID a, Article.Create a)) (articles w).
Proof.
  split.
  - destruct (User_Update_users id user w) as [->|(sel & upd & ->)];
      [reflexivity|].
    apply coll_Update_map. intros d.
    apply (apply_update_id (HD:=User_Document)).
  - rewrite Article_Update_run.
    destruct (bson.ObjectIdHex id) as [oid|]; [|reflexivity].
    rewrite Update_articles. cbn [snd].
    replace (articles (with_articles _ w)) with
      (fst (coll_Update (safe w)
              ({[ "_id" := BObjectId oid ]} : gmap string value)
              {[ "$set" :=
                   {[ "titre" := BString (Article.Titre article);
                      "pretty" :=
                        BString (utils_SanitizeTitle (Article.Titre article));
                      "image" := BImage (Article.Image article);
                      "vignette" := BVignette (Article.Vignette article);
                      "texte" := BString (Article.Texte article);
                      "status" := BString (Article.Status article);
                      "modified" := BTime (Article.Modified article);
                      "tags" := BTags (Article.Tags article);
                      "userref" :=
                        BRef (mgo.mkDBRef
                                (mgo.Collection (Article.UserRef article))
                                (mgo.Id (Article.UserRef article)) "") ]} ]}
              (articles w))) by (destruct w; reflexivity).
    apply coll_Update_map. intros d. rewrite article_set_applied. reflexivity.
Qed.

(** X21.  After [Delete] of a stored document whose identifier no other
    stored document has, [GetByID] with that identifier finds nothing:
    [ErrNotFound] for a user, "No article" for an article. *)
Theorem Delete_then_GetByID (w : World) :
  (forall pre (d : User.t) post,
      users w = (pre ++ d :: post)%list ->
      (forall x, In x (pre ++ post)%list -> User.ID x <> User.ID d) ->
      String.length (User.ID d) = 12%nat ->
      let w' := snd (UserService_Delete d w) in
      users w' = (pre ++ post)%list
      /\ UserService_GetByID (bson.Hex (User.ID d)) w'
         = (Done (zero, Some mgo.ErrNotFound), w'))
  /\ (forall pre (d : Article) post,
        articles w = (pre ++ d :: post)%list ->
        (forall x, In x (pre ++ post)%list -> Article.ID x <> Article.ID d) ->
        String.length (Article.ID d) = 12%nat ->
        let w' := snd (ArticleService_Delete d w) in
        articles w' = (pre ++ post)%list
        /\ ArticleService_GetByID (bson.Hex (Article.ID d)) w'
           = (Done (zero, Some (errors_New "No article")), w')).
Proof.
  split.
  - intros pre d post Hw Hother Hlen w'. subst w'.
    rewrite User_Delete_run, Hw. unfold coll_Remove.
    rewrite remove_first_hit.
    + cbn [fst snd].
      assert (Hu : users (with_users (pre ++ post)%list w)
                   = (pre ++ post)%list) by (destruct w; reflexivity).
      split; [exact Hu|].
      rewrite GetByID_run, (ObjectIdHex_Hex _ Hlen), Hu.
      rewrite (One_FindId_none (HD:=User_Document) _ _ Hother). reflexivity.
    + intros x Hx. eapply matches_false_iff; [apply matches_user_delete|].
      intros [Hi _]. apply (Hother x); [|exact Hi].
      apply in_or_app. left. exact Hx.
    + apply matches_user_delete. auto.
  - intros pre d post Hw Hother Hlen w'. subst w'.
    rewrite Article_Delete_run, Hw. unfold coll_Remove.
    rewrite remove_first_hit.
    + cbn [fst snd].
      assert (Hu : articles (with_articles (pre ++ post)%list w)
                   = (pre ++ post)%list) by (destruct w; reflexivity).
      split; [exact Hu|].
      rewrite Article_GetByID_run, (ObjectIdHex_Hex _ Hlen), Hu.
      rewrite (One_FindId_none (HD:=Article_Document) _ _ Hother).
      reflexivity.
    + intros x Hx. eapply matches_false_iff; [apply matches_article_delete|].
      intros [Hi _]. apply (Hother x); [|exact Hi].
      apply in_or_app. left. exact Hx.
    + apply matches_article_delete. auto.
Qed.

(** X22.  [Add] never changes or removes a stored document: afterwards
    the collection is the one before, or the one before followed by one
    document, which carries the generated identifier, and this only
    when no stored document had that identifier. *)
Theorem Add_only_appends (user : User.t) (article : Article) (w : World) :
  (let c' := users (snd (UserService_Add id_source salt_source
                           security_HashPassword user w)) in
   c' = users w
   \/ exists d,
        c' = (users w ++ [d])%list /\ User.ID d = id_source (idCtr w)
        /\ forall x, In x (users w) -> User.ID x <> id_source (idCtr w))
  /\ (let c' := articles (snd (ArticleService_Add id_source
                                 utils_SanitizeTitle article w)) in
      c' = articles w
      \/ exists d,
           c' = (articles w ++ [d])%list
           /\ Article.ID d = id_source (idCtr w)
           /\ forall x, In x (articles w) ->
                Article.ID x <> id_source (idCtr w)).
Proof.
  cbv zeta. split.
  - destruct (User_Add_users user w) as [->|(d & Hd & ->)]; [left; reflexivity|].
    destruct (coll_Insert_shape (HD:=User_Document) (safe w) d (users w))
      as [->|[-> Hfresh]]; [left; reflexivity|].
    right. exists d. split; [reflexivity|]. split; [exact Hd|].
    intros x Hx. rewrite <- Hd. apply (Hfresh x Hx).
  - rewrite Article_Add_articles.
    destruct (coll_Insert_shape (HD:=Article_Document) (safe w)
                (inserted (id_source (idCtr w)) article) (articles w))
      as [->|[-> Hfresh]]; [left; reflexivity|].
    right. eexists. split; [reflexivity|]. split; [reflexivity|].
    intros x Hx. apply (Hfresh x Hx).
Qed.

(** X23.  If the stored documents of a collection have pairwise distinct
    identifiers, they still have after [Add], [Delete] or [Update],
    whatever the arguments and on every path. *)
Theorem identifiers_stay_distinct (w : World) :
  (NoDup (map User.ID (users w)) ->
   (forall user,
       NoDup (map User.ID
                (users (snd (UserService_Add id_source salt_source
                               security_HashPassword user w)))))
   /\ (forall user,
         NoDup (map User.ID (users (snd (UserService_Delete user w)))))
   /\ (forall id user,
         NoDup (map User.ID
                  (users (snd (UserService_Update salt_source
                                 security_HashPassword id user w))))))
  /\ (NoDup (map Article.ID (articles w)) ->
      (forall article,
          NoDup (map Article.ID
                   (articles (snd (ArticleService_Add id_source
                                     utils_SanitizeTitle article w)))))
      /\ (forall article,
            NoDup (map Article.ID
                     (articles (snd (ArticleService_Delete article w)))))
      /\ (forall id article,
            NoDup (map Article.ID
                     (articles (snd (ArticleService_Update
                                       utils_SanitizeTitle id article w)))))).
Proof.
  split; intros Hnd; (split; [|split]).
  - intros user.
    destruct (User_Add_users user w) as [->|(d & Hd & ->)]; [exact Hnd|].
    destruct (coll_Insert_shape (HD:=User_Document) (safe w) d (users w))
      as [->|[-> Hfresh]]; [exact Hnd|].
    apply NoDup_map_snoc; [exact Hnd|exact Hfresh].
  - intros user. rewrite User_Delete_run. cbv zeta. cbn [snd].
    unfold coll_Remove.
    destruct (remove_first _ (users w)) as [c'|] eqn:E.
    + apply remove_first_Some in E as (pre & d & post & Hw & -> & _ & _).
      rewrite Hw in Hnd. apply NoDup_map_remove in Hnd.
      destruct w; exact Hnd.
    + destruct w; exact Hnd.
  - intros id user.
    destruct (User_Update_users id user w) as [->|(sel & upd & ->)];
      [exact Hnd|].
    rewrite (coll_Update_map (HD:=User_Document) User.ID); [exact Hnd|].
    intros d. apply (apply_update_id (HD:=User_Document)).
  - intros article. rewrite Article_Add_articles.
    destruct (coll_Insert_shape (HD:=Article_Document) (safe w)
                (inserted (id_source (idCtr w)) article) (articles w))
      as [->|[-> Hfresh]]; [exact Hnd|].
    apply NoDup_map_snoc; [exact Hnd|exact Hfresh].
  - intros article. rewrite Article_Delete_run. cbv zeta. cbn [snd].
    unfold coll_Remove.
    destruct (remove_first _ (articles w)) as [c'|] eqn:E.
    + apply remove_first_Some in E as (pre & d & post & Hw & -> & _ & _).
      rewrite Hw in Hnd. apply NoDup_map_remove in Hnd.
      destruct w; exact Hnd.
    + destruct w; exact Hnd.
  - intros id article. rewrite Article_Update_run.
    destruct (bson.ObjectIdHex id) as [oid|]; [|exact Hnd].
    rewrite Update_articles. cbn [snd].
    replace (articles (with_articles _ w)) with
      (fst (coll_Update (safe w)
              ({[ "_id" := BObjectId oid ]} : gmap string value)
              {[ "$set" :=
                   {[ "titre" := BString (Article.Titre article);
                      "pretty" :=
                        BString (utils_SanitizeTitle (Article.Titre article));
                      "image" := BImage (Article.Image article);
                      "vignette" := BVignette (Article.Vignette article);
                      "texte" := BString (Article.Texte article);
                      "status" := BString (Article.Status article);
                      "modified" := BTime (Article.Modified article);
                      "tags" := BTags (Article.Tags article);
                      "userref" :=
                        BRef (mgo.mkDBRef
                                (mgo.Collection (Article.UserRef article))
                                (mgo.Id (Article.UserRef article)) "") ]} ]}
              (articles w))) by (destruct w; reflexivity).
    rewrite (coll_Update_map (HD:=Article_Document) Article.ID);
      [exact Hnd|].
    intros d. apply (apply_update_id (HD:=Article_Document)).
Qed.

End Claims.

(** * The theorems at work on the small instance *)

Lemma UserService_Get_failure_errors_witness :
  UserService_Get demo.check "bob" "rabbit" demo.with_alice
  = (Done (zero, Some mgo.ErrNotFound), demo.with_alice)
  /\ UserService_Get demo.check "alice" "wrong" demo.with_alice
     = (Done (zero, Some (errors_New "Invalid password")), demo.with_alice)
  /\ UserService_Get (fun _ _ _ => (true, Some (errors_New "kdf failed")))
       "alice" "rabbit" demo.with_alice
     = (Done (zero, Some (errors_New "kdf failed")), demo.with_alice).
Proof.
  split; [|split].
  - apply (proj1 (UserService_Get_failure_errors demo.check
                    demo.with_alice "bob" "rabbit")).
    intros u [<-|[]]. discriminate.
  - apply (proj1 (proj2 (UserService_Get_failure_errors demo.check
                           demo.with_alice "alice" "wrong"))
             [] demo.alice []).
    + reflexivity.
    + intros x [].
    + reflexivity.
    + vm_compute. reflexivity.
  - apply (proj1 (proj2 (proj2
             (UserService_Get_failure_errors
                (fun _ _ _ => (true, Some (errors_New "kdf failed")))
                demo.with_alice "alice" "rabbit")))
             [] demo.alice [] true (errors_New "kdf failed")).
    + reflexivity.
    + intros x [].
    + reflexivity.
    + reflexivity.
Defined.

(** C1, as stated, fails: the unknown username and the wrong password
    are reported by different errors. *)
Lemma UserService_Get_reveals_failed_check :
  exists e1 e2,
    fst (UserService_Get demo.check "bob" "rabbit" demo.with_alice)
    = Done (zero, Some e1)
    /\ fst (UserService_Get demo.check "alice" "wrong" demo.with_alice)
       = Done (zero, Some e2)
    /\ e1 <> e2.
Proof.
  exists mgo.ErrNotFound, (errors_New "Invalid password").
  split; [vm_compute; reflexivity|].
  split; [vm_compute; reflexivity|discriminate].
Qed.

Lemma user_writes_store_salt_and_hash_witness :
  exists d,
    users (snd (UserService_Add demo.ids demo.salts demo.hash demo.newcomer
                  demo.empty)) = [d]
    /\ User.Salt d = string_of_list_byte (repeat x2a 32)
    /\ User.Password d <> "carrots".
Proof.
  destruct (proj2 (proj2 (user_writes_store_salt_and_hash demo.ids demo.salts
                            demo.hash "" demo.newcomer demo.empty)))
    as (d & Hd & Hs & _ & Hp).
  - cbn. lia.
  - cbn. lia.
  - reflexivity.
  - reflexivity.
  - intros x [].
  - exists d. split; [exact Hd|]. split; [exact Hs|].
    apply Hp. vm_compute. discriminate.
Defined.

Lemma malformed_id_is_Incorrect_ID_witness :
  UserService_GetByID "zz" demo.with_alice
  = (Done (zero, Some (errors_New "Incorrect ID")), demo.with_alice)
  /\ UserService_Update demo.salts demo.hash "zz" demo.newcomer demo.with_alice
     = (Done (Some (errors_New "Incorrect ID")),
        with_saltCtr 1 demo.with_alice)
  /\ UserService_Update demo.no_entropy demo.hash "zz" demo.newcomer
       demo.with_alice
     = (Done (Some (errors_New "entropy source failed")),
        with_saltCtr 1 demo.with_alice)
  /\ UserService_Update demo.salts
       (fun _ _ => ([], Some (errors_New "kdf failed"))) "zz" demo.newcomer
       demo.with_alice
     = (Done (Some (errors_New "kdf failed")), with_saltCtr 1 demo.with_alice).
Proof.
  assert (Hbad : ~ bson.valid_hex24 "zz") by (intros [Hl _]; discriminate Hl).
  destruct (malformed_id_is_Incorrect_ID demo.salts demo.hash "zz"
              demo.newcomer demo.with_alice Hbad) as (HG & _ & _ & _ & HI).
  destruct (malformed_id_is_Incorrect_ID demo.no_entropy demo.hash "zz"
              demo.newcomer demo.with_alice Hbad) as (_ & _ & HS & _ & _).
  destruct (malformed_id_is_Incorrect_ID demo.salts
              (fun _ _ => ([], Some (errors_New "kdf failed"))) "zz"
              demo.newcomer demo.with_alice Hbad) as (_ & _ & _ & HH & _).
  split; [exact HG|]. split; [|split].
  - apply (HI (repeat x2a 32)); [reflexivity|].
    right. eexists. reflexivity.
  - apply (HS [] (errors_New "entropy source failed")). reflexivity.
  - apply (HH (repeat x2a 32) [] (errors_New "kdf failed"));
      [reflexivity|cbn; lia|reflexivity].
Defined.

(** C3, as stated, fails for [Update]: when salt generation fails, its
    error is returned and the malformed identifier goes unnoticed. *)
Lemma UserService_Update_malformed_id_salt_error :
  ~ bson.valid_hex24 "zz"
  /\ fst (UserService_Update demo.no_entropy demo.hash "zz" demo.newcomer
            demo.with_alice)
     = Done (Some (errors_New "entropy source failed"))
  /\ errors_New "entropy source failed" <> errors_New "Incorrect ID".
Proof.
  split; [intros [Hl _]; discriminate Hl|].
  split; [vm_compute; reflexivity|discriminate].
Qed.

Lemma Delete_without_match_witness :
  UserService_Delete demo.impostor demo.with_alice
  = (Done (Some mgo.ErrNotFound), demo.with_alice)
  /\ ArticleService_Delete demo.post demo.empty
     = (Done (Some mgo.ErrNotFound), demo.empty).
Proof.
  destruct (Delete_without_match demo.with_alice) as [HU _].
  destruct (Delete_without_match demo.empty) as [_ HA].
  split.
  - apply HU; [reflexivity|]. intros d [<-|[]] [_ Hn]. discriminate Hn.
  - apply HA; [reflexivity|]. intros d [].
Defined.

(** C4, as stated, fails: in a safe-mode session a [Delete] that matches
    nothing returns [ErrNotFound], not nil. *)
Lemma UserService_Delete_unmatched_is_an_error :
  (forall d, In d (users demo.with_alice) ->
     ~ (User.ID d = User.ID demo.impostor
        /\ User.Username d = User.Username demo.impostor))
  /\ fst (UserService_Delete demo.impostor demo.with_alice)
     = Done (Some mgo.ErrNotFound)
  /\ fst (UserService_Delete demo.impostor demo.with_alice) <> Done None.
Proof.
  split; [intros d [<-|[]] [_ Hn]; discriminate Hn|].
  split; [vm_compute; reflexivity|vm_compute; discriminate].
Qed.

Lemma slug_is_recomputed_from_title_witness :
  exists y',
    ArticleService_Update demo.slug (bson.Hex "00000000000p") demo.retitled
      demo.with_post
    = (Done None, with_articles [y'] demo.with_post)
    /\ Article.Titre y' = "Through the glass"
    /\ Article.Pretty y' = "Through-the-glass".
Proof.
  destruct (proj2 (proj2 (proj2
              (slug_is_recomputed_from_title demo.ids demo.slug
                 (bson.Hex "00000000000p") demo.retitled demo.with_post)))
              "00000000000p" [] demo.post [])
    as (y' & HU & _ & Ht & Hp).
  - vm_compute. reflexivity.
  - reflexivity.
  - intros x [].
  - reflexivity.
  - exists y'. split; [exact HU|]. split; [exact Ht|].
    rewrite Hp. vm_compute. reflexivity.
Defined.

Lemma UserService_Update_rehashes_witness :
  UserService_Update demo.salts demo.hash (bson.Hex "00000000000a")
    demo.newcomer demo.with_alice
  = (Done None,
     with_users
       [User.mk "00000000000a" "bob"
          (string_of_list_byte
             (take 32 (fst (demo.hash (list_byte_of_string "carrots")
                              (repeat x2a 32)))))
          (string_of_list_byte (take 32 (repeat x2a 32)))
          "bob@example.org" "Bob" "Hare"]
       (with_saltCtr 1 demo.with_alice)).
Proof.
  destruct (proj2 (UserService_Update_rehashes demo.salts demo.hash
                     (bson.Hex "00000000000a") demo.newcomer demo.with_alice)
              (repeat x2a 32)
              (fst (demo.hash (list_byte_of_string "carrots") (repeat x2a 32)))
              "00000000000a")
    as (fields & _ & _ & _ & _ & _ & _ & _ & _ & HU).
  - reflexivity.
  - cbn. lia.
  - reflexivity.
  - cbn. lia.
  - vm_compute. reflexivity.
  - apply (HU [] demo.alice []).
    + reflexivity.
    + intros x [].
    + reflexivity.
Defined.

Lemma ArticleService_Add_modified_is_create_witness :
  exists d,
    articles (snd (ArticleService_Add demo.ids demo.slug demo.post demo.empty))
    = [d]
    /\ Article.Create d = 1000%Z /\ Article.Modified d = 1000%Z.
Proof.
  destruct (proj2 (ArticleService_Add_modified_is_create demo.ids demo.slug
                     demo.post demo.empty)) as (d & Hd & Hc & Hm).
  - intros x [].
  - exists d. split; [exact Hd|]. split; [exact Hc|exact Hm].
Defined.

Lemma Add_then_GetByID_witness :
  exists u w',
    UserService_Add demo.ids demo.salts demo.hash demo.newcomer demo.empty
    = (Done (u, None), w')
    /\ UserService_GetByID (bson.Hex (User.ID u)) w' = (Done (u, None), w').
Proof.
  eexists _, _. split.
  - vm_compute. reflexivity.
  - apply (proj1 (Add_then_GetByID demo.ids demo.salts demo.hash demo.slug
                    demo.empty (fun n => eq_refl)) demo.newcomer).
    vm_compute. reflexivity.
Defined.

Lemma author_reference_collection_witness :
  exists d,
    articles (snd (ArticleService_Add demo.ids demo.slug demo.post demo.empty))
    = [d]
    /\ mgo.Collection (Article.UserRef d) = "user"
    /\ mgo.Id (Article.UserRef d) = Some tt.
Proof.
  destruct (proj1 (proj2 (author_reference_collection demo.ids demo.slug ""
                            demo.post demo.empty)))
    as (d & Hd & Hc & Hi).
  - intros x [].
  - exists d. split; [exact Hd|]. split; [exact Hc|exact Hi].
Defined.

(** * The further properties at work on the small instance *)

Lemma UserService_Get_first_match_witness :
  UserService_Get demo.check "alice" "rabbit" demo.with_alice
  = (Done (demo.alice, None), demo.with_alice).
Proof.
  apply (proj1 (UserService_Get_first_match demo.check demo.with_alice
                  "alice" "rabbit" [] demo.alice [] eq_refl
                  (fun x (H : In x []) => match H with end) eq_refl)).
  vm_compute. reflexivity.
Defined.

Lemma UserService_GetByID_Incorrect_ID_iff_witness :
  exists u,
    UserService_GetByID "zz" demo.with_alice
    = (Done (u, Some (errors_New "Incorrect ID")), demo.with_alice).
Proof.
  apply (proj2 (UserService_GetByID_Incorrect_ID_iff "zz" demo.with_alice)).
  intros [Hl _]. discriminate Hl.
Defined.

Lemma GetByID_lookup_witness :
  UserService_GetByID (bson.Hex "00000000000a") demo.with_alice
  = (Done (demo.alice, None), demo.with_alice)
  /\ ArticleService_GetByID (bson.Hex "00000000000a") demo.with_alice
     = (Done (zero, Some (errors_New "No article")), demo.with_alice).
Proof.
  destruct (GetByID_lookup (bson.Hex "00000000000a") "00000000000a"
              demo.with_alice) as (_ & HU & HA & _).
  - vm_compute. reflexivity.
  - split.
    + apply (HU [] demo.alice []); [reflexivity|intros x []|reflexivity].
    + apply HA. intros x [].
Defined.

Lemma ArticleService_GetByPretty_lookup_witness :
  ArticleService_GetByPretty "caller-slug" demo.with_post
  = (Done (demo.post, None), demo.with_post)
  /\ ArticleService_GetByPretty "no-such-slug" demo.with_post
     = (Done (zero, Some (errors_New "No article")), demo.with_post).
Proof.
  destruct (ArticleService_GetByPretty_lookup "caller-slug" demo.with_post)
    as [_ Hhit].
  destruct (ArticleService_GetByPretty_lookup "no-such-slug" demo.with_post)
    as [Hmiss _].
  split.
  - apply (Hhit [] demo.post []); [reflexivity|intros x []|reflexivity].
  - apply Hmiss. intros x [<-|[]]. discriminate.
Defined.

Lemma ArticleService_Update_malformed_id_panics_witness :
  ArticleService_Update demo.slug "zz" demo.retitled demo.with_post
  = (Panicked "invalid input to ObjectIdHex: zz", demo.with_post).
Proof.
  apply (ArticleService_Update_malformed_id_panics demo.slug "zz"
           demo.retitled demo.with_post).
  intros [Hl _]. discriminate Hl.
Defined.

Lemma Update_without_match_witness :
  ArticleService_Update demo.slug (bson.Hex "00000000000z") demo.retitled
    demo.with_post
  = (Done (Some mgo.ErrNotFound), demo.with_post)
  /\ UserService_Update demo.salts demo.hash (bson.Hex "00000000000z")
       demo.newcomer demo.with_alice
     = (Done (Some mgo.ErrNotFound), with_saltCtr 1 demo.with_alice).
Proof.
  assert (Hid : bson.ObjectIdHex (bson.Hex "00000000000z")
                = Done "00000000000z") by (vm_compute; reflexivity).
  destruct (Update_without_match demo.salts demo.hash demo.slug
              (bson.Hex "00000000000z") "00000000000z" demo.with_post Hid)
    as [HA _].
  destruct (Update_without_match demo.salts demo.hash demo.slug
              (bson.Hex "00000000000z") "00000000000z" demo.with_alice Hid)
    as [_ HU].
  split.
  - apply HA. intros x [<-|[]]. discriminate.
  - apply (HU demo.newcomer (repeat x2a 32)
             (fst (demo.hash (list_byte_of_string "carrots")
                     (repeat x2a 32)))).
    + reflexivity.
    + cbn. lia.
    + reflexivity.
    + cbn. lia.
    + intros x [<-|[]]. discriminate.
Defined.

Lemma Delete_removes_first_match_witness :
  UserService_Delete demo.alice demo.with_alice
  = (Done None, with_users [] demo.with_alice)
  /\ ArticleService_Delete demo.post demo.with_post
     = (Done None, with_articles [] demo.with_post).
Proof.
  destruct (Delete_removes_first_match demo.with_alice) as [HU _].
  destruct (Delete_removes_first_match demo.with_post) as [_ HA].
  split.
  - apply (HU demo.alice [] demo.alice []);
      [reflexivity|intros x []|reflexivity|reflexivity].
  - apply (HA demo.post [] demo.post []);
      [reflexivity|intros x []|reflexivity|reflexivity].
Defined.

Lemma Add_returns_the_stored_document_witness :
  fst (UserService_Add demo.ids demo.salts demo.hash demo.newcomer demo.empty)
  = Done (User.mk "000000000000" "bob"
            (string_of_list_byte
               (take 32 (fst (demo.hash (list_byte_of_string "carrots")
                                (repeat x2a 32)))))
            (string_of_list_byte (repeat x2a 32))
            "bob@example.org" "Bob" "Hare", None)
  /\ fst (ArticleService_Add demo.ids demo.slug demo.post demo.empty)
     = Done (Article.mk "000000000000" "Down the hole" "Down-the-hole" "text"
               [tt] tt tt "draft" 1000%Z 1000%Z
               (mgo.mkDBRef "user" (Some tt) ""), None).
Proof.
  destruct (Add_returns_the_stored_document demo.ids demo.salts demo.hash
              demo.slug demo.empty) as [HU HA].
  split.
  - rewrite (HU demo.newcomer (repeat x2a 32)
               (fst (demo.hash (list_byte_of_string "carrots")
                       (repeat x2a 32)))).
    + vm_compute. reflexivity.
    + reflexivity.
    + cbn. lia.
    + reflexivity.
    + cbn. lia.
    + intros x [].
  - rewrite (HA demo.post).
    + vm_compute. reflexivity.
    + intros x [].
Defined.

Lemma Add_then_Get_witness :
  exists d w',
    UserService_Add demo.ids demo.salts demo.hash demo.newcomer demo.with_alice
    = (Done (d, None), w')
    /\ UserService_Get demo.check "bob" "carrots" w' = (Done (d, None), w').
Proof.
  apply (Add_then_Get demo.ids demo.salts demo.hash demo.check demo.newcomer
           demo.with_alice (repeat x2a 32)
           (fst (demo.hash (list_byte_of_string "carrots") (repeat x2a 32)))).
  - reflexivity.
  - cbn. lia.
  - reflexivity.
  - cbn. lia.
  - intros x [<-|[]]. discriminate.
  - intros x [<-|[]]. discriminate.
  - vm_compute. reflexivity.
Defined.

Lemma Add_with_identifier_in_use_witness :
  UserService_Add demo.ids demo.salts demo.hash demo.newcomer
    (with_users [User.mk "000000000000" "carol" "" "" "" "" ""] demo.empty)
  = (Done (User.mk "000000000000" "carol" "" "" "" "" "", None),
     with_saltCtr 1
       (with_idCtr 1
          (with_users [User.mk "000000000000" "carol" "" "" "" "" ""]
             demo.empty))).
Proof.
  apply (proj1 (Add_with_identifier_in_use demo.ids demo.salts demo.hash
                  demo.slug
                  (with_users [User.mk "000000000000" "carol" "" "" "" "" ""]
                     demo.empty))
           demo.newcomer (repeat x2a 32)
           (fst (demo.hash (list_byte_of_string "carrots") (repeat x2a 32)))
           [] (User.mk "000000000000" "carol" "" "" "" "" "") []).
  - reflexivity.
  - cbn. lia.
  - reflexivity.
  - cbn. lia.
  - reflexivity.
  - intros x [].
  - reflexivity.
Defined.

Lemma credential_failures_witness :
  UserService_Add demo.ids demo.no_entropy demo.hash demo.newcomer demo.empty
  = (Done (zero, Some (errors_New "Error when generatiing Salt")),
     with_idCtr 1 (with_saltCtr 1 demo.empty))
  /\ UserService_Update demo.no_entropy demo.hash "zz" demo.newcomer
       demo.empty
     = (Done (Some (errors_New "entropy source failed")),
        with_saltCtr 1 demo.empty).
Proof.
  apply (proj1 (credential_failures demo.ids demo.no_entropy demo.hash "zz"
                  demo.newcomer demo.empty) []
           (errors_New "entropy source failed")).
  reflexivity.
Defined.

Lemma short_salt_or_hash_witness :
  UserService_Add demo.ids (fun _ => ([x2a; x2a], None)) demo.hash
    demo.newcomer demo.with_alice
  = (Panicked "slice bounds out of range",
     with_saltCtr 1 (with_idCtr 1 demo.with_alice))
  /\ UserService_Update (fun _ => ([x2a; x2a], None)) demo.hash
       (bson.Hex "00000000000a") demo.newcomer demo.with_alice
     = (Done (Some (errors_New "Incorrect ID")),
        with_saltCtr 1 demo.with_alice).
Proof.
  apply (short_salt_or_hash demo.ids (fun _ => ([x2a; x2a], None)) demo.hash
           (bson.Hex "00000000000a") demo.newcomer demo.with_alice
           [x2a; x2a]).
  - reflexivity.
  - left. cbn. lia.
Defined.

Lemma Update_then_GetByID_witness :
  ArticleService_GetByID (bson.Hex "00000000000p")
    (snd (ArticleService_Update demo.slug (bson.Hex "00000000000p")
            demo.retitled demo.with_post))
  = (Done (Article.mk "00000000000p" "Through the glass" "Through-the-glass"
             "text" [tt] tt tt "published" 1000%Z 3000%Z
             (mgo.mkDBRef "people" (Some tt) ""), None),
     snd (ArticleService_Update demo.slug (bson.Hex "00000000000p")
            demo.retitled demo.with_post)).
Proof.
  assert (Hid : bson.ObjectIdHex (bson.Hex "00000000000p")
                = Done "00000000000p") by (vm_compute; reflexivity).
  rewrite (proj2 (Update_then_GetByID demo.salts demo.hash demo.slug
                    (bson.Hex "00000000000p") "00000000000p" demo.with_post
                    Hid)
             demo.retitled [] demo.post []).
  - reflexivity.
  - reflexivity.
  - intros x [].
  - reflexivity.
Defined.

Lemma Delete_then_GetByID_witness :
  UserService_GetByID (bson.Hex "00000000000a")
    (snd (UserService_Delete demo.alice demo.with_alice))
  = (Done (zero, Some mgo.ErrNotFound),
     snd (UserService_Delete demo.alice demo.with_alice)).
Proof.
  apply (proj1 (Delete_then_GetByID demo.with_alice) [] demo.alice []).
  - reflexivity.
  - intros x [].
  - reflexivity.
Defined.

Lemma identifiers_stay_distinct_witness :
  NoDup (map User.ID
           (users (snd (UserService_Add demo.ids demo.salts demo.hash
                          demo.newcomer demo.with_alice)))).
Proof.
  apply (proj1 (identifiers_stay_distinct demo.ids demo.salts demo.hash
                  demo.slug demo.with_alice)).
  apply NoDup_singleton.
Defined.
